(** * DataFlow: the spreadsheet formula evaluator

    A shallow embedding of [evaluateFormula], [getDisplayValue]
    (src/components/Spreadsheet.tsx) and [getCellValue] (src/App.tsx),
    together with the part of the JavaScript runtime they lean on:
    binary64 numbers, [parseFloat], [parseInt], [String(number)], the three
    regular-expression replacements and the evaluation of the spliced
    function body [return (expr)].

    Strings are sequences of 8-bit code units (the Latin-1 range of the
    UTF-16 code units of a JavaScript string). *)

From Stdlib Require Import ZArith Lia Bool List Ascii String.
From Stdlib Require Import Floats.SpecFloat.
From stdpp Require Import base option list strings gmap.

Local Open Scope Z_scope.

(** ** JavaScript numbers: IEEE 754 binary64, round to nearest even *)

Module JSNumber.

Definition prec : Z := 53.
Definition emax : Z := 1024.

Abbreviation number := spec_float.

Definition nan : number := S754_nan.
Definition zero : number := S754_zero false.
Definition infinity : number := S754_infinity false.

Definition add : number -> number -> number := SFadd prec emax.
Definition sub : number -> number -> number := SFsub prec emax.
Definition mul : number -> number -> number := SFmul prec emax.
Definition div : number -> number -> number := SFdiv prec emax.
Definition neg : number -> number := SFopp.
Definition leb : number -> number -> bool := SFleb.

Definition isNaN (x : number) : bool :=
  match x with S754_nan => true | _ => false end.

(** The Number value for a mathematical integer. *)
Definition ofZ (z : Z) : number := binary_normalize prec emax z 0 false.

Definition one : number := ofZ 1.

(** Number of decimal digits of a positive integer; 0 for 0. *)
Fixpoint ndigits10_go (fuel : nat) (n : Z) : Z :=
  match fuel with
  | O => 0
  | S f => if n <=? 0 then 0 else 1 + ndigits10_go f (n / 10)
  end.

Definition ndigits10 (n : Z) : Z :=
  ndigits10_go (S (Z.to_nat (Z.log2 n))) n.

(** The Number value for [m * 10 ^ t] with [m >= 0], correctly rounded:
    the rounding that [parseFloat], [parseInt] and numeric literals apply
    to the mathematical value of their digits.  Magnitudes beyond the
    binary64 range are cut short before the power of ten is built. *)
Definition ofDecimal (sign : bool) (m : Z) (t : Z) : number :=
  if m <=? 0 then S754_zero sign
  else if 400 <? ndigits10 m + t then S754_infinity sign
  else if ndigits10 m + t <? -400 then S754_zero sign
  else if 0 <=? t then binary_normalize prec emax (if sign then - (m * 10 ^ t) else m * 10 ^ t) 0 false
  else
    match m, 10 ^ (- t) with
    | Zpos pm, Zpos pd => div (S754_finite sign pm 0) (S754_finite false pd 0)
    | _, _ => S754_nan
    end.

(** *** Decimal digits *)

Definition digitChar (d : Z) : ascii := ascii_of_N (Z.to_N (48 + d)).

Fixpoint decimal_go (fuel : nat) (n : Z) (acc : string) : string :=
  match fuel with
  | O => acc
  | S f =>
      if n <? 10 then String (digitChar n) acc
      else decimal_go f (n / 10) (String (digitChar (n mod 10)) acc)
  end.

(** Decimal representation of a non-negative integer. *)
Definition decimal (n : Z) : string :=
  decimal_go (S (Z.to_nat (Z.log2 n))) n EmptyString.

Fixpoint zeros (n : nat) : string :=
  match n with O => EmptyString | S k => String "0" (zeros k) end.

Fixpoint takeS (n : nat) (s : string) : string :=
  match n, s with
  | S k, String c r => String c (takeS k r)
  | _, _ => EmptyString
  end.

Fixpoint dropS (n : nat) (s : string) : string :=
  match n, s with
  | S k, String _ r => dropS k r
  | _, _ => s
  end.

(** *** Number::toString, radix 10

    For a finite positive [x = mx * 2 ^ ex], [x] is the fraction
    [num / den]. *)

Definition fracNum (mx : positive) (ex : Z) : Z :=
  if 0 <=? ex then Zpos mx * 2 ^ ex else Zpos mx.
Definition fracDen (ex : Z) : Z :=
  if 0 <=? ex then 1 else 2 ^ (- ex).

(** For [p < q], the least [j >= 1] with [q <= p * 10 ^ j]. *)
Fixpoint leadShift (fuel : nat) (p q : Z) (j : Z) : Z :=
  match fuel with
  | O => j
  | S f => if q <=? p * 10 then j else leadShift f (p * 10) q (j + 1)
  end.

(** The decimal exponent [n] with [10 ^ (n - 1) <= p / q < 10 ^ n]. *)
Definition decimalExponent (p q : Z) : Z :=
  if q <=? p then ndigits10 (p / q)
  else 1 - leadShift 400 p q 1.

(** [p / q * 10 ^ t] as a fraction. *)
Definition scale10 (p q t : Z) : Z * Z :=
  if 0 <=? t then (p * 10 ^ t, q) else (p, q * 10 ^ (- t)).

(** The candidates with [k] digits: the two [k]-digit decimals that
    enclose [x], each kept when it reads back as [x]; the closer one wins,
    the even one on a tie. *)
Definition candidate (x : number) (p q n k : Z) : option (Z * Z) :=
  let '(a, b) := scale10 p q (k - n) in
  let lo := a / b in
  let hi := lo + 1 in
  let okLo := match SFcompare (ofDecimal false lo (n - k)) x with Some Eq => true | _ => false end in
  let okHi := match SFcompare (ofDecimal false hi (n - k)) x with Some Eq => true | _ => false end in
  let hiPair := if hi <? 10 ^ k then (hi, n) else (10 ^ (k - 1), n + 1) in
  let dLo := a - lo * b in
  let dHi := hi * b - a in
  match okLo, okHi with
  | true, true =>
      if dLo <? dHi then Some (lo, n)
      else if dHi <? dLo then Some hiPair
      else if Z.even lo then Some (lo, n) else Some hiPair
  | true, false => Some (lo, n)
  | false, true => Some hiPair
  | false, false => None
  end.

Fixpoint shortest (fuel : nat) (x : number) (p q n k : Z) : Z * Z * Z :=
  match fuel with
  | O => (fst (scale10 p q (k - n)) / snd (scale10 p q (k - n)), k, n)
  | S f =>
      match candidate x p q n k with
      | Some (s, n') => (s, k, n')
      | None => shortest f x p q n (k + 1)
      end
  end.

Definition exponentText (e : Z) : string :=
  (if e <? 0 then "e-" else "e+") +:+ decimal (Z.abs e).

(** Steps 6 to 10 of Number::toString for the digits [s], their count [k]
    and the decimal exponent [n]. *)
Definition layout (s k n : Z) : string :=
  let ds := decimal s in
  if (k <=? n) && (n <=? 21) then ds +:+ zeros (Z.to_nat (n - k))
  else if (0 <? n) && (n <=? 21) then
    takeS (Z.to_nat n) ds +:+ "." +:+ dropS (Z.to_nat n) ds
  else if (-6 <? n) && (n <=? 0) then
    "0." +:+ zeros (Z.to_nat (- n)) +:+ ds
  else if k =? 1 then ds +:+ exponentText (n - 1)
  else takeS 1 ds +:+ "." +:+ dropS 1 ds +:+ exponentText (n - 1).

Definition positiveToString (mx : positive) (ex : Z) : string :=
  let p := fracNum mx ex in
  let q := fracDen ex in
  let n := decimalExponent p q in
  let '(s, k, n') := shortest 17 (S754_finite false mx ex) p q n 1 in
  layout s k n'.

(** [String(x)] and the conversion of a template literal. *)
Definition toString (x : number) : string :=
  match x with
  | S754_nan => "NaN"
  | S754_zero _ => "0"
  | S754_infinity false => "Infinity"
  | S754_infinity true => "-Infinity"
  | S754_finite false mx ex => positiveToString mx ex
  | S754_finite true mx ex => "-" +:+ positiveToString mx ex
  end.

End JSNumber.

Import JSNumber.

(** ** Strings *)

Definition code (c : ascii) : Z := Z.of_N (N_of_ascii c).

Definition isDigit (c : ascii) : bool := (48 <=? code c) && (code c <=? 57).
Definition isUpper (c : ascii) : bool := (65 <=? code c) && (code c <=? 90).
Definition isLower (c : ascii) : bool := (97 <=? code c) && (code c <=? 122).
Definition isLetter (c : ascii) : bool := isUpper c || isLower c.

(** White space and line terminators, as [trim] and [parseFloat] skip
    them: TAB, LF, VT, FF, CR, SP, NBSP. *)
Definition isSpace (c : ascii) : bool :=
  ((9 <=? code c) && (code c <=? 13)) || (code c =? 32) || (code c =? 160).

Definition toUpper (c : ascii) : ascii :=
  if isLower c then ascii_of_N (Z.to_N (code c - 32)) else c.

Definition sameChar (a b : ascii) : bool := code a =? code b.

Fixpoint takeWhile (p : ascii -> bool) (s : string) : string :=
  match s with
  | String c r => if p c then String c (takeWhile p r) else EmptyString
  | EmptyString => EmptyString
  end.

Fixpoint dropWhile (p : ascii -> bool) (s : string) : string :=
  match s with
  | String c r => if p c then dropWhile p r else s
  | EmptyString => EmptyString
  end.

Definition isEmpty (s : string) : bool :=
  match s with EmptyString => true | _ => false end.

(** [s.startsWith(p)] *)
Fixpoint startsWith (p s : string) : bool :=
  match p, s with
  | EmptyString, _ => true
  | String a p', String b s' => sameChar a b && startsWith p' s'
  | String _ _, EmptyString => false
  end.

(** [startsWith] up to the case of ASCII letters: how a literal of a
    regular expression with the [i] flag matches. *)
Fixpoint startsWithNoCase (p s : string) : bool :=
  match p, s with
  | EmptyString, _ => true
  | String a p', String b s' => sameChar (toUpper a) (toUpper b) && startsWithNoCase p' s'
  | String _ _, EmptyString => false
  end.

Fixpoint trimEnd (s : string) : string :=
  match s with
  | EmptyString => EmptyString
  | String c r =>
      let r' := trimEnd r in
      if isSpace c && isEmpty r' then EmptyString else String c r'
  end.

(** [s.trim()] *)
Definition trim (s : string) : string := trimEnd (dropWhile isSpace s).

(** [s.substring(1)] *)
Definition substring1 (s : string) : string :=
  match s with String _ r => r | EmptyString => EmptyString end.

Definition len (s : string) : nat := String.length s.

(** ** parseFloat and parseInt *)

Fixpoint digitsValue_go (acc : Z) (s : string) : Z :=
  match s with
  | String c r => digitsValue_go (acc * 10 + (code c - 48)) r
  | EmptyString => acc
  end.

(** Mathematical value of a run of decimal digits. *)
Definition digitsValue (s : string) : Z := digitsValue_go 0 s.

(** The exponent part [e], [e+] or [e-] followed by digits, when there is
    one at the head of [s]: its value and its length. *)
Definition exponentPart (s : string) : option (Z * nat) :=
  match s with
  | String c r =>
      if sameChar (toUpper c) "E" then
        match r with
        | String "-" r' =>
            let ds := takeWhile isDigit r' in
            if isEmpty ds then None else Some (- digitsValue ds, (2 + len ds)%nat)
        | String "+" r' =>
            let ds := takeWhile isDigit r' in
            if isEmpty ds then None else Some (digitsValue ds, (2 + len ds)%nat)
        | _ =>
            let ds := takeWhile isDigit r in
            if isEmpty ds then None else Some (digitsValue ds, (1 + len ds)%nat)
        end
      else None
  | EmptyString => None
  end.

(** The longest prefix of [u] that is an unsigned decimal literal:
    digits, an optional fraction, an optional exponent.  Returns the digits
    with the decimal exponent and the length of the prefix, or [None] when
    there is no digit. *)
Definition decimalPrefix (u : string) : option (Z * Z * nat) :=
  let ip := takeWhile isDigit u in
  let r1 := dropS (len ip) u in
  let '(fp, hasDot) :=
    match r1 with
    | String "." r => (takeWhile isDigit r, true)
    | _ => (EmptyString, false)
    end in
  if isEmpty ip && isEmpty fp then None
  else
    let mantLen := (len ip + (if hasDot then 1 + len fp else 0))%nat in
    let r2 := dropS mantLen u in
    let '(e, elen) := match exponentPart r2 with Some (e, l) => (e, l) | None => (0, O) end in
    Some (digitsValue (ip +:+ fp), e - Z.of_nat (len fp), (mantLen + elen)%nat).

Definition parseFloat (s : string) : number :=
  let t := dropWhile isSpace s in
  let '(sign, u) :=
    match t with
    | String "-" r => (true, r)
    | String "+" r => (false, r)
    | _ => (false, t)
    end in
  if startsWith "Infinity" u then S754_infinity sign
  else
    match decimalPrefix u with
    | Some (m, e, _) => ofDecimal sign m e
    | None => nan
    end.

Definition isHexDigit (c : ascii) : bool :=
  isDigit c || ((65 <=? code (toUpper c)) && (code (toUpper c) <=? 70)).

Fixpoint hexValue_go (acc : Z) (s : string) : Z :=
  match s with
  | String c r =>
      hexValue_go (acc * 16 + (if isDigit c then code c - 48 else code (toUpper c) - 55)) r
  | EmptyString => acc
  end.

(** [parseInt(s)] with no radix argument. *)
Definition parseInt (s : string) : number :=
  let t := dropWhile isSpace s in
  let '(sign, u) :=
    match t with
    | String "-" r => (true, r)
    | String "+" r => (false, r)
    | _ => (false, t)
    end in
  if startsWithNoCase "0x" u then
    let ds := takeWhile isHexDigit (dropS 2 u) in
    if isEmpty ds then nan
    else binary_normalize prec emax (if sign then - hexValue_go 0 ds else hexValue_go 0 ds) 0 sign
  else
    let ds := takeWhile isDigit u in
    if isEmpty ds then nan else ofDecimal sign (digitsValue ds) 0.

(** [s.charCodeAt(0)] *)
Definition charCodeAt0 (s : string) : number :=
  match s with
  | String c _ => ofZ (code c)
  | EmptyString => nan
  end.

(** ** Global replacement with a function

    [s.replace(re, f)] for a regular expression with the [g] flag:
    [matchAt] tells, at the head of a suffix of [s], the text that replaces
    the match and the length of the match.  The scan goes left to right and
    resumes after each match; [skip] counts the characters of the current
    match still to be passed over.  A replacement of [None] is a call the
    model does not follow. *)

Section Replace.
Variable matchAt : string -> option (option string * nat).

Fixpoint replaceFrom (skip : nat) (s : string) : option string :=
  match s with
  | EmptyString => Some EmptyString
  | String c r =>
      match skip with
      | S k => replaceFrom k r
      | O =>
          match matchAt s with
          | Some (Some text, n) =>
              match replaceFrom (Nat.pred n) r with
              | Some rest => Some (text +:+ rest)
              | None => None
              end
          | Some (None, _) => None
          | None =>
              match replaceFrom O r with
              | Some rest => Some (String c rest)
              | None => None
              end
          end
      end
  end.

Definition replaceAll (s : string) : option string := replaceFrom O s.
End Replace.

(** *** The three regular expressions *)

(** [/([A-Z]+)(\d+)/] at the head of [s]: the two groups and the length of
    the match.  The letter run is greedy, and giving letters back never
    helps, since a digit has to follow. *)
Definition cellRefRegex (s : string) : option (string * string * nat) :=
  let col := takeWhile isUpper s in
  let rowNum := takeWhile isDigit (dropS (len col) s) in
  if isEmpty col || isEmpty rowNum then None
  else Some (col, rowNum, (len col + len rowNum)%nat).

(** [([A-Z]+)(\d+)] under the [i] flag. *)
Definition addressNoCase (s : string) : option (string * string * nat) :=
  let col := takeWhile isLetter s in
  let rowNum := takeWhile isDigit (dropS (len col) s) in
  if isEmpty col || isEmpty rowNum then None
  else Some (col, rowNum, (len col + len rowNum)%nat).

(** [name\(([A-Z]+)(\d+):([A-Z]+)(\d+)\)] under the [i] flag, [name]
    being the text before the groups, parenthesis included. *)
Definition rangeCallRegex (name : string) (s : string)
  : option (string * string * string * string * nat) :=
  if startsWithNoCase name s then
    let s1 := dropS (len name) s in
    match addressNoCase s1 with
    | Some (startCol, startRow, n1) =>
        match dropS n1 s1 with
        | String ":" s2 =>
            match addressNoCase s2 with
            | Some (endCol, endRow, n2) =>
                match dropS n2 s2 with
                | String ")" _ =>
                    Some (startCol, startRow, endCol, endRow, (len name + n1 + 1 + n2 + 1)%nat)
                | _ => None
                end
            | None => None
            end
        | _ => None
        end
    | None => None
    end
  else None.

Definition sumRegex : string -> option (string * string * string * string * nat) :=
  rangeCallRegex "SUM(".

Definition avgRegex : string -> option (string * string * string * string * nat) :=
  rangeCallRegex "AVERAGE(".

(** ** Running the spliced function body

    [Function('"use strict"; return (' + expr + ')')()] compiles and runs
    a function body.  The model follows the tokens that arithmetic is made
    of: numeric literals, identifiers, [+ - * /], parentheses and the
    colon.  Whatever else the text holds ends the model's account of it
    ([TOther]): the run is then [Beyond].  [TBad] is a token that strict
    mode refuses outright. *)

Inductive token : Type :=
  | TNum (v : number)
  | TIdent (name : string)
  | TPlus | TMinus | TStar | TSlash
  | TLParen | TRParen | TColon
  | TBad
  | TOther.

(** White space between tokens: TAB, VT, FF, SP, NBSP.  Line terminators
    are left to [TOther], since a line break can end the statement. *)
Definition isBlank (c : ascii) : bool :=
  (code c =? 9) || (code c =? 11) || (code c =? 12) || (code c =? 32) || (code c =? 160).

Definition isIdentStart (c : ascii) : bool :=
  isLetter c || (code c =? 36) || (code c =? 95).

Definition isIdentPart (c : ascii) : bool := isIdentStart c || isDigit c.

Fixpoint allLower (s : string) : bool :=
  match s with
  | String c r => isLower c && allLower r
  | EmptyString => true
  end.

(** What may not follow a literal or a name without a gap: more of a
    name, an escape, or a character outside ASCII other than NBSP. *)
Definition continuesWord (s : string) : bool :=
  match s with
  | String c _ =>
      isIdentPart c || (code c =? 92) || ((128 <=? code c) && negb (code c =? 160))
  | EmptyString => false
  end.

(** A numeric literal at the head of [s], which starts with a digit, or
    with a dot and a digit.  A leading 0 followed by a digit is an octal
    or octal-like literal, an early error in strict mode. *)
Definition lexNumber (s : string) : token * nat :=
  let ip := takeWhile isDigit s in
  if startsWith "0" ip && negb (len ip =? 1)%nat then (TBad, O)
  else
    match decimalPrefix s with
    | Some (m, e, n) =>
        if continuesWord (dropS n s) then (TOther, O)
        else (TNum (ofDecimal false m e), n)
    | None => (TOther, O)
    end.

(** A name at the head of [s].  Every reserved word is made of lower-case
    letters only, so a name with any other character is an identifier. *)
Definition lexIdent (s : string) : token * nat :=
  let name := takeWhile isIdentPart s in
  if continuesWord (dropS (len name) s) then (TOther, O)
  else if allLower name then (TOther, O)
  else (TIdent name, len name).

Definition headIs (p : ascii -> bool) (s : string) : bool :=
  match s with String c _ => p c | EmptyString => false end.

Fixpoint tokenize (skip : nat) (s : string) : list token :=
  match s with
  | EmptyString => []
  | String c r =>
      match skip with
      | S k => tokenize k r
      | O =>
          if isBlank c then tokenize O r
          else if isDigit c || (sameChar c "." && headIs isDigit r) then
            match lexNumber s with
            | (TNum v, n) => TNum v :: tokenize (Nat.pred n) r
            | (t, _) => [t]
            end
          else if isIdentStart c then
            match lexIdent s with
            | (TIdent name, n) => TIdent name :: tokenize (Nat.pred n) r
            | (t, _) => [t]
            end
          else if sameChar c "+" then
            if headIs (sameChar "+") r then [TOther] else TPlus :: tokenize O r
          else if sameChar c "-" then
            if headIs (sameChar "-") r then [TOther] else TMinus :: tokenize O r
          else if sameChar c "*" then
            if headIs (sameChar "*") r then [TOther] else TStar :: tokenize O r
          else if sameChar c "/" then
            if headIs (fun d => sameChar "/" d || sameChar "*" d) r then [TOther]
            else TSlash :: tokenize O r
          else if sameChar c "(" then TLParen :: tokenize O r
          else if sameChar c ")" then TRParen :: tokenize O r
          else if sameChar c ":" then TColon :: tokenize O r
          else [TOther]
      end
  end.

(** *** The expression machine

    One pass over the tokens with a stack of values and a stack of pending
    operators.  A value is [None] when it comes from a name or a call,
    whose meaning the global object decides. *)

Inductive run : Type :=
  | Returned (v : number)
  | Threw
  | Beyond.

Inductive operator : Type :=
  | OAdd | OSub | OMul | ODiv
  | ONeg | OPos
  | OGroup | OCall.

Inductive mode : Type :=
  | Operand (opened : option bool)
      (** an operand is due; [Some true] right after the parenthesis of a
          call, [Some false] right after a grouping parenthesis *)
  | After   (** an operand has just been read *)
  | EmptyGroup. (** [()] was read where an operand is due *)

Record machine : Type := Machine {
  vals : list (option number);
  ops : list operator;
  now : mode
}.

Definition precedence (o : operator) : Z :=
  match o with
  | OGroup | OCall => 0
  | OAdd | OSub => 1
  | OMul | ODiv => 2
  | ONeg | OPos => 3
  end.

Definition lift2 (f : number -> number -> number) (a b : option number) : option number :=
  match a, b with
  | Some x, Some y => Some (f x y)
  | _, _ => None
  end.

(** Apply one pending operator to the value stack. *)
Definition apply (o : operator) (vs : list (option number)) : option (list (option number)) :=
  match o, vs with
  | OAdd, b :: a :: rest => Some (lift2 add a b :: rest)
  | OSub, b :: a :: rest => Some (lift2 sub a b :: rest)
  | OMul, b :: a :: rest => Some (lift2 mul a b :: rest)
  | ODiv, b :: a :: rest => Some (lift2 div a b :: rest)
  | ONeg, a :: rest => Some (option_map neg a :: rest)
  | OPos, a :: rest => Some (a :: rest)
  | _, _ => None
  end.

(** Apply the pending operators that bind at least as tightly as [p]. *)
Fixpoint reduce (p : Z) (os : list operator) (vs : list (option number))
  : option (list operator * list (option number)) :=
  match os with
  | o :: os' =>
      if (p <=? precedence o) && (0 <? precedence o) then
        match apply o vs with
        | Some vs' => reduce p os' vs'
        | None => None
        end
      else Some (os, vs)
  | [] => Some ([], vs)
  end.

Inductive status : Type :=
  | Running (m : machine)
  | Halt (r : run).

Definition binary (o : operator) (m : machine) : status :=
  match reduce (precedence o) (ops m) (vals m) with
  | Some (os, vs) => Running (Machine vs (o :: os) (Operand None))
  | None => Halt Beyond
  end.

Definition closeParen (m : machine) : status :=
  match reduce 1 (ops m) (vals m) with
  | Some (OGroup :: os, vs) => Running (Machine vs os After)
  | Some (OCall :: os, _ :: _ :: vs) => Running (Machine (None :: vs) os After)
  | Some ([], _) => Halt Threw
  | _ => Halt Beyond
  end.

Definition step (m : machine) (t : token) : status :=
  match t with
  | TOther => Halt Beyond
  | TBad => Halt Threw
  | _ =>
    match now m with
    | Operand opened =>
        match t with
        | TNum v => Running (Machine (Some v :: vals m) (ops m) After)
        | TIdent name =>
            let v := if String.eqb name "Infinity" then Some infinity
                     else if String.eqb name "NaN" then Some nan
                     else None in
            Running (Machine (v :: vals m) (ops m) After)
        | TPlus => Running (Machine (vals m) (OPos :: ops m) (Operand None))
        | TMinus => Running (Machine (vals m) (ONeg :: ops m) (Operand None))
        | TLParen => Running (Machine (vals m) (OGroup :: ops m) (Operand (Some false)))
        | TRParen =>
            match opened, ops m, vals m with
            | Some true, OCall :: os, _ :: vs => Running (Machine (None :: vs) os After)
            | Some false, OGroup :: os, vs => Running (Machine vs os EmptyGroup)
            | _, _, _ => Halt Threw
            end
        | TSlash => Halt Beyond
        | _ => Halt Threw
        end
    | After =>
        match t with
        | TPlus => binary OAdd m
        | TMinus => binary OSub m
        | TStar => binary OMul m
        | TSlash => binary ODiv m
        | TLParen => Running (Machine (vals m) (OCall :: ops m) (Operand (Some true)))
        | TRParen => closeParen m
        | _ => Halt Threw
        end
    | EmptyGroup => Halt Threw
    end
  end.

(** The end of the function body. *)
Definition finish (m : machine) : run :=
  match now m with
  | After =>
      match reduce 1 (ops m) (vals m) with
      | Some ([], [Some v]) => Returned v
      | Some ([], [None]) => Beyond
      | Some (_ :: _, _) => Threw
      | _ => Beyond
      end
  | _ => Threw
  end.

Fixpoint runTokens (m : machine) (ts : list token) : run :=
  match ts with
  | [] => finish m
  | t :: ts' =>
      match step m t with
      | Running m' => runTokens m' ts'
      | Halt r => r
      end
  end.

(** The tokens of [return (expr)] after [return]: the scan of [expr] is
    cut at its first [TOther], which the closing parenthesis follows only
    in name. *)
Definition bodyTokens (expr : string) : list token :=
  TLParen :: tokenize O expr ++ [TRParen].

Definition runBody (expr : string) : run :=
  runTokens (Machine [] [] (Operand None)) (bodyTokens expr).

(** ** The sheet *)

(** [SpreadsheetData]: an object from keys [row-col] to strings. *)
Abbreviation SpreadsheetData := (gmap string string).

(** [v || d] for a property that may be missing: [undefined] and the
    empty string are the falsy ones. *)
Definition orElse (v : option string) (d : string) : string :=
  match v with
  | Some (String c r) => String c r
  | _ => d
  end.

(** The template literal with a row, a dash and a column. *)
Definition cellKey (row col : number) : string :=
  toString row +:+ "-" +:+ toString col.

(** [getCellValue] of App.tsx *)
Definition getCellValue (spreadsheetData : SpreadsheetData) (row col : number) : string :=
  let key := cellKey row col in
  orElse (spreadsheetData !! key) "".

(** ** evaluateFormula *)

(** [parseInt(rowNum) - 1] *)
Definition rowIndex (rowNum : string) : number := sub (parseInt rowNum) one.

(** [col.charCodeAt(0) - 65] *)
Definition columnIndex (col : string) : number := sub (charCodeAt0 col) (ofZ 65).

(** The function given to the first [replace]. *)
Definition cellRefReplacer (data : SpreadsheetData) (col rowNum : string) : string :=
  let rowIdx := rowIndex rowNum in
  let colIdx := columnIndex col in
  let key := cellKey rowIdx colIdx in
  let cellValue := orElse (data !! key) "0" in
  if startsWith "=" cellValue then "0"
  else
    let numValue := parseFloat cellValue in
    if isNaN numValue then "0" else toString numValue.

(** The integer a Number stands for, when it stands for one. *)
Definition toInteger (x : number) : option Z :=
  match x with
  | S754_zero _ => Some 0
  | S754_finite s m e =>
      if 0 <=? e then Some (cond_Zopp s (Zpos m * 2 ^ e))
      else if Zpos m mod 2 ^ (- e) =? 0 then Some (cond_Zopp s (Zpos m / 2 ^ (- e)))
      else None
  | _ => None
  end.

(** The values of [i] in [for (let i = a; i <= b; i++)].  The counter is
    followed while it stays in the range where [i++] is exact, that is for
    integer bounds of magnitude below 2^53; other bounds give [None]. *)
Definition counter (a b : number) : option (list Z) :=
  if leb a b then
    match toInteger a, toInteger b with
    | Some x, Some y =>
        if (- 2 ^ 53 <? x) && (y <? 2 ^ 53) then Some (seqZ x (y - x + 1)) else None
    | _, _ => None
    end
  else Some [].

(** What one cell adds to the running sum and count. *)
Definition visit (data : SpreadsheetData) (r c : Z) (acc : number * Z) : number * Z :=
  let key := cellKey (ofZ r) (ofZ c) in
  let val := orElse (data !! key) "0" in
  if negb (startsWith "=" val) then
    let num := parseFloat val in
    if negb (isNaN num) then (add (fst acc) num, snd acc + 1) else acc
  else acc.

(** The two nested loops, rows outside and columns inside.  [count] is
    kept as an integer; it is returned only below 2^53, where [count++] is
    exact. *)
Definition scanRange (data : SpreadsheetData) (startRowIdx startColIdx endRowIdx endColIdx : number)
  : option (number * Z) :=
  match counter startRowIdx endRowIdx, counter startColIdx endColIdx with
  | Some rows, Some cols =>
      let acc :=
        foldl (fun acc r => foldl (fun acc c => visit data r c acc) acc cols) (zero, 0) rows in
      if snd acc <? 2 ^ 53 then Some acc else None
  | _, _ => None
  end.

(** The function given to the [replace] of [sumRegex]. *)
Definition sumReplacer (data : SpreadsheetData) (startCol startRow endCol endRow : string)
  : option string :=
  let startRowIdx := rowIndex startRow in
  let startColIdx := columnIndex startCol in
  let endRowIdx := rowIndex endRow in
  let endColIdx := columnIndex endCol in
  match scanRange data startRowIdx startColIdx endRowIdx endColIdx with
  | Some (sum, _) => Some (toString sum)
  | None => None
  end.

(** The function given to the [replace] of [avgRegex]. *)
Definition avgReplacer (data : SpreadsheetData) (startCol startRow endCol endRow : string)
  : option string :=
  let startRowIdx := rowIndex startRow in
  let startColIdx := columnIndex startCol in
  let endRowIdx := rowIndex endRow in
  let endColIdx := columnIndex endCol in
  match scanRange data startRowIdx startColIdx endRowIdx endColIdx with
  | Some (sum, count) =>
      Some (if 0 <? count then toString (div sum (ofZ count)) else "0")
  | None => None
  end.

(** [expr.replace(cellRefRegex, replacer)] *)
Definition replaceCellRefs (replacer : string -> string -> string) : string -> option string :=
  replaceAll (fun s =>
    match cellRefRegex s with
    | Some (col, rowNum, n) => Some (Some (replacer col rowNum), n)
    | None => None
    end).

(** [expr.replace(regex, replacer)] for [sumRegex] and [avgRegex] *)
Definition replaceRangeCalls
    (regex : string -> option (string * string * string * string * nat))
    (replacer : string -> string -> string -> string -> option string)
  : string -> option string :=
  replaceAll (fun s =>
    match regex s with
    | Some (startCol, startRow, endCol, endRow, n) =>
        Some (replacer startCol startRow endCol endRow, n)
    | None => None
    end).

(** The text handed to [Function], after the three replacements. *)
Definition substituted (formula : string) (data : SpreadsheetData) : option string :=
  let expr := trim (substring1 formula) in
  expr ← replaceCellRefs (cellRefReplacer data) expr;
  expr ← replaceRangeCalls sumRegex (sumReplacer data) expr;
  replaceRangeCalls avgRegex (avgReplacer data) expr.

(** What a call displays: a string, or [Untold] when the model does not
    follow the call to its end. *)
Inductive display : Type :=
  | Shown (text : string)
  | Untold.

Definition errorMarker : string := "#ERROR".

Definition evaluateFormula (formula : string) (currentRow currentCol : Z) (data : SpreadsheetData)
  : display :=
  if negb (startsWith "=" formula) then Shown formula
  else
    match substituted formula data with
    | Some expr =>
        match runBody expr with
        | Returned result => Shown (toString result)
        | Threw => Shown errorMarker
        | Beyond => Untold
        end
    | None => Untold
    end.

(** [getDisplayValue] of the Spreadsheet component, [data] being the prop
    it closes over. *)
Definition getDisplayValue (data : SpreadsheetData) (value : string) (row col : Z) : display :=
  if isEmpty value then Shown ""
  else if startsWith "=" value then evaluateFormula value row col data
  else Shown value.

(** A snapshot from its entries. *)
Definition sheet (l : list (string * string)) : SpreadsheetData := list_to_map l.

(** ** The specification's reading of the same operations

    Definitions that follow the words of the specification, to set
    against the definitions above. *)

Module Spec.

(** Section 4.1: the letters decode to a zero-indexed column via base 26
    with no zero digit (A=0, Z=25, AA=26). *)
Fixpoint base26_go (acc : Z) (letters : string) : Z :=
  match letters with
  | String c r => base26_go (acc * 26 + (code c - 64)) r
  | EmptyString => acc
  end.

Definition column (letters : string) : Z := base26_go 0 letters - 1.

(** Section 3: empty or absent entries are treated as the empty string. *)
Definition content (data : SpreadsheetData) (key : string) : string :=
  default "" (data !! key).

(** Section 4.2, step 3: the cells of the rectangle whose content parses
    as a number, in the order rows then columns. *)
Definition numericCells (data : SpreadsheetData) (rows cols : list Z) : list number :=
  List.filter (fun n => negb (isNaN n))
    (map (fun rc => parseFloat (content data (cellKey (ofZ (fst rc)) (ofZ (snd rc)))))
         (list_prod rows cols)).

(** AVERAGE: sum over count, and 0 when no cell contributes. *)
Definition average (data : SpreadsheetData) (rows cols : list Z) : string :=
  let nums := numericCells data rows cols in
  if (length nums =? 0)%nat then "0"
  else toString (div (foldl add zero nums) (ofZ (Z.of_nat (length nums)))).



End Spec.

(** ** What a snapshot contributes *)

(** The number a cell stands for in a formula: [NaN] when its content is
    a formula or does not parse. *)
Definition numberAt (data : SpreadsheetData) (key : string) : number :=
  let v := orElse (data !! key) "0" in
  if startsWith "=" v then nan else parseFloat v.

(** The text the first replacement writes for a cell content. *)
Definition written (cellValue : string) : string :=
  if startsWith "=" cellValue then "0"
  else if isNaN (parseFloat cellValue) then "0" else toString (parseFloat cellValue).

(** One more term of a sum and its count. *)
Definition tally (acc : number * Z) (n : number) : number * Z :=
  (add (fst acc) n, snd acc + 1).

(** The numbers that the cells of a rectangle contribute, rows outside
    and columns inside. *)
Definition contributions (data : SpreadsheetData) (rows cols : list Z) : list number :=
  List.filter (fun n => negb (isNaN n))
    (map (fun rc => numberAt data (cellKey (ofZ (fst rc)) (ofZ (snd rc))))
         (list_prod rows cols)).

(** The text [avgReplacer] returns for the numbers that contribute. *)
Definition averageText (nums : list number) : string :=
  if (length nums =? 0)%nat then "0"
  else toString (div (foldl add zero nums) (ofZ (Z.of_nat (length nums)))).

(** Two snapshots that give every key the same number. *)
Definition alike (d d' : SpreadsheetData) : Prop :=
  forall key, numberAt d key = numberAt d' key.

(** ** Auxiliary notions for the properties *)

(** *** Parentheses of a run *)






(** *** The shape of the text of a number *)

Fixpoint allS (p : ascii -> bool) (s : string) : bool :=
  match s with
  | String c r => p c && allS p r
  | EmptyString => true
  end.








(** ** The application state (App.tsx)

    The state of the [App] component and its handlers, each one taken on
    the state that the one before it left: [now] is the reading of
    [Date.now()], and [timer] is the callback that [undo] and [redo] hand
    to [setTimeout]. *)

Module App.

Record HistoryState : Type := {
  data : SpreadsheetData;
  timestamp : Z
}.

Record State : Type := {
  spreadsheetData : SpreadsheetData;
  history : list HistoryState;
  historyIndex : nat;
  isUpdatingRef : bool
}.

(** One element of the argument of [updateMultipleCells]. *)
Record CellUpdate : Type := {
  row : number;
  col : number;
  value : string
}.

Definition initial (now : Z) : State :=
  {| spreadsheetData := ∅;
     history := [{| data := ∅; timestamp := now |}];
     historyIndex := 0;
     isUpdatingRef := false |}.

Definition addToHistory (now : Z) (newData : SpreadsheetData) (st : State) : State :=
  if isUpdatingRef st then st
  else
    let newHistory :=
      take (S (historyIndex st)) (history st) ++ [{| data := newData; timestamp := now |}] in
    let newHistory :=
      if (50 <? length newHistory)%nat then drop 1 newHistory else newHistory in
    {| spreadsheetData := spreadsheetData st;
       history := newHistory;
       historyIndex := length newHistory - 1;
       isUpdatingRef := isUpdatingRef st |}.

(** [setSpreadsheetData] with the new object, after [addToHistory]. *)
Definition setData (newData : SpreadsheetData) (st : State) : State :=
  {| spreadsheetData := newData;
     history := history st;
     historyIndex := historyIndex st;
     isUpdatingRef := isUpdatingRef st |}.

Definition updateCell (now : Z) (row col : number) (value : string) (st : State) : State :=
  let key := cellKey row col in
  let newData := <[key:=value]> (spreadsheetData st) in
  setData newData (addToHistory now newData st).

(** The object that the [forEach] of [updateMultipleCells] fills. *)
Definition applyUpdates (updates : list CellUpdate) (prev : SpreadsheetData) : SpreadsheetData :=
  foldl (fun updated u => <[cellKey (row u) (col u):=value u]> updated) prev updates.

Definition updateMultipleCells (now : Z) (updates : list CellUpdate) (st : State) : State :=
  let updated := applyUpdates updates (spreadsheetData st) in
  setData updated (addToHistory now updated st).

(** [undo] and [redo]; [None] is the TypeError of reading [data] of an
    element that the history does not have. *)
Definition undo (st : State) : option State :=
  if (0 <? historyIndex st)%nat then
    let newIndex := (historyIndex st - 1)%nat in
    match history st !! newIndex with
    | Some h =>
        Some {| spreadsheetData := data h;
                history := history st;
                historyIndex := newIndex;
                isUpdatingRef := true |}
    | None => None
    end
  else Some st.

Definition redo (st : State) : option State :=
  if (historyIndex st <? length (history st) - 1)%nat then
    let newIndex := (historyIndex st + 1)%nat in
    match history st !! newIndex with
    | Some h =>
        Some {| spreadsheetData := data h;
                history := history st;
                historyIndex := newIndex;
                isUpdatingRef := true |}
    | None => None
    end
  else Some st.

(** The callback of [setTimeout(..., 0)]. *)
Definition timer (st : State) : State :=
  {| spreadsheetData := spreadsheetData st;
     history := history st;
     historyIndex := historyIndex st;
     isUpdatingRef := false |}.

(** [getCellValue] and [getAllData] on a state. *)
Definition cellValue (st : State) (row col : number) : string :=
  getCellValue (spreadsheetData st) row col.

(** The index points into the history, which holds at most 50 states. *)
Definition inv (st : State) : Prop :=
  (historyIndex st < length (history st))%nat /\ (length (history st) <= 50)%nat.

(** The state that the index points at is the sheet on display. *)
Definition synced (st : State) : Prop :=
  exists h, history st !! historyIndex st = Some h /\ data h = spreadsheetData st.

End App.


(** ** The grid and its keys *)

(** [COLUMN_COUNT] and [ROW_COUNT] of the Spreadsheet component *)
Definition COLUMN_COUNT : Z := 10.
Definition ROW_COUNT : Z := 50.

(** [String.fromCharCode(n)], for a code below 256 *)
Definition fromCharCode (n : Z) : string := String (ascii_of_N (Z.to_N n)) EmptyString.

Definition COLUMN_LETTERS : list string :=
  map (fun i => fromCharCode (65 + i)) (seqZ 0 COLUMN_COUNT).

(** [getCellLabel] of the DiffPreview component: the letter of the column
    and the number of the row, as the headers of the grid show them. *)
Definition getCellLabel (row : number) (col : Z) : string :=
  fromCharCode (65 + col) +:+ toString (add row one).

(** [s.split(sep)] for a separator of one character *)
Fixpoint splitFrom (sep : ascii) (current : string) (s : string) : list string :=
  match s with
  | EmptyString => [current]
  | String c r =>
      if sameChar c sep then current :: splitFrom sep EmptyString r
      else splitFrom sep (current +:+ String c EmptyString) r
  end.

Definition split (sep : ascii) (s : string) : list string := splitFrom sep EmptyString s.

(** [parseInt(parts[i])], where a missing element reads as [undefined] *)
Definition parseIntAt (parts : list string) (i : nat) : number :=
  match parts !! i with
  | Some s => parseInt s
  | None => nan
  end.

(** The row and the column that [exportToCSV] reads off a key. *)
Definition keyRow (key : string) : number := parseIntAt (split "-" key) 0.
Definition keyCol (key : string) : number := parseIntAt (split "-" key) 1.

(** Structural equality of numbers. *)
Definition sameNumber (x y : number) : bool :=
  match x, y with
  | S754_zero a, S754_zero b => Bool.eqb a b
  | S754_infinity a, S754_infinity b => Bool.eqb a b
  | S754_nan, S754_nan => true
  | S754_finite a m e, S754_finite b n f => Bool.eqb a b && (m =? n)%positive && (e =? f)
  | _, _ => false
  end.

(** A check on every cell of the grid. *)
Definition gridAll (P : Z -> Z -> bool) : bool :=
  forallb (fun r => forallb (fun c => P r c) (seqZ 0 COLUMN_COUNT)) (seqZ 0 ROW_COUNT).


(** ** CSV *)

Definition quote : ascii := "034"%char.
Definition newline : ascii := "010"%char.
Definition comma : ascii := ","%char.

(** [value.includes(c)] for a text [c] of one character *)
Fixpoint includes (c : ascii) (s : string) : bool :=
  match s with
  | EmptyString => false
  | String a r => sameChar a c || includes c r
  end.

(** The [replace] of [escapedValue], with the [g] flag: every double
    quote of the value is written twice. *)
Fixpoint doubleQuotes (s : string) : string :=
  match s with
  | EmptyString => EmptyString
  | String c r =>
      if sameChar c quote then String quote (String quote (doubleQuotes r))
      else String c (doubleQuotes r)
  end.

(** [escapedValue] of [exportToCSV] *)
Definition escapedValue (value : string) : string :=
  if includes comma value || includes quote value || includes newline value
  then String quote (doubleQuotes value +:+ String quote EmptyString)
  else value.

(** [parts.join(sep)] *)
Fixpoint join (sep : string) (parts : list string) : string :=
  match parts with
  | [] => EmptyString
  | x :: rest =>
      match rest with
      | [] => x
      | _ :: _ => x +:+ sep +:+ join sep rest
      end
  end.

(** The loop of [parseCSVLine] from a position on: [line] is what is left
    of the line, [current], [inQuotes] and [result] are the variables of
    the source.  A quote inside quotes that is followed by a quote adds
    one quote and skips the second. *)
Fixpoint parseFrom (line current : string) (inQuotes : bool) (result : list string)
  : list string :=
  match line with
  | EmptyString => result ++ [current]
  | String char rest =>
      if sameChar char quote then
        match rest with
        | String next rest' =>
            if inQuotes && sameChar next quote
            then parseFrom rest' (current +:+ String quote EmptyString) inQuotes result
            else parseFrom rest current (negb inQuotes) result
        | EmptyString => parseFrom rest current (negb inQuotes) result
        end
      else if sameChar char comma && negb inQuotes
      then parseFrom rest EmptyString inQuotes (result ++ [current])
      else parseFrom rest (current +:+ String char EmptyString) inQuotes result
  end.

Definition parseCSVLine (line : string) : list string :=
  parseFrom line EmptyString false [].

(** What may follow a field: the end of the line, or anything but a
    quote. *)
Definition noQuoteAhead (tail : string) : bool :=
  match tail with
  | String next _ => negb (sameChar next quote)
  | EmptyString => true
  end.

(** The line that [exportToCSV] writes for [row]: [rowData.join(',')],
    for the columns [cols] of its inner loop. *)
Definition exportRow (data : SpreadsheetData) (row : Z) (cols : list Z) : string :=
  join ","
    (map (fun col => escapedValue (orElse (data !! cellKey (ofZ row) (ofZ col)) "")) cols).

(** [Math.max(...xs)]: a NaN gives NaN, [+0] is above [-0]. *)
Definition isNegZero (x : number) : bool :=
  match x with S754_zero true => true | _ => false end.

Definition isPosZero (x : number) : bool :=
  match x with S754_zero false => true | _ => false end.

Definition lt (x y : number) : bool :=
  match SFcompare x y with Some Lt => true | _ => false end.

Fixpoint mathMax_go (highest : number) (xs : list number) : number :=
  match xs with
  | [] => highest
  | x :: rest =>
      if isNaN x then nan
      else if isPosZero x && isNegZero highest then mathMax_go x rest
      else if lt highest x then mathMax_go x rest
      else mathMax_go highest rest
  end.

Definition mathMax (xs : list number) : number := mathMax_go (S754_infinity true) xs.

(** [maxRow] and [maxCol] of [exportToCSV].  [Math.max] does not depend
    on the order of its arguments, so the keys are taken in the order of
    the map. *)
Definition maxRow (data : SpreadsheetData) : number :=
  mathMax (map (fun kv => keyRow (fst kv)) (map_to_list data) ++ [zero]).

Definition maxCol (data : SpreadsheetData) : number :=
  mathMax (map (fun kv => keyCol (fst kv)) (map_to_list data) ++ [zero]).

(** The line of the headers for the columns up to [maxCol]. *)
Definition headerLine (cols : list Z) : string :=
  join "," (map (fun col => fromCharCode (65 + col)) cols).

(** [csvContent] of [exportToCSV]: the line of the headers and one line
    for each row.  The strings of this development have code units of 8
    bits: a header beyond column 190 is outside them, and [None]. *)
Definition csvContent (data : SpreadsheetData) : option (list string) :=
  match counter zero (maxCol data), counter zero (maxRow data) with
  | Some cols, Some rows =>
      if forallb (fun col => col <=? 190) cols
      then Some (headerLine cols
                 :: map (fun row => exportRow data row cols) rows)
      else None
  | _, _ => None
  end.

(** The text that [exportToCSV] hands to the download:
    [csvContent.join('\n')]. *)
Definition exportToCSV (data : SpreadsheetData) : option string :=
  match csvContent data with
  | Some lines => Some (join (String newline EmptyString) lines)
  | None => None
  end.

(** [/^[A-Z,]+$/] *)
Definition isHeader (line : string) : bool :=
  negb (isEmpty line) && allS (fun c => isUpper c || sameChar c comma) line.

(** The inner loop of [importFromCSV]: the values of line [i] go to the
    keys of row [i]. *)
Definition storeRow (i : Z) (values : list string) (newData : SpreadsheetData)
  : SpreadsheetData :=
  foldl (fun d jv => <[cellKey (ofZ i) (ofZ (Z.of_nat (fst jv))):=snd jv]> d) newData
    (imap (fun j v => (j, v)) values).

(** The outer loop of [importFromCSV] over the lines with data; [i] of
    the source is the position here plus [startRow]. *)
Definition storeLines (lines : list string) (newData : SpreadsheetData) : SpreadsheetData :=
  foldl (fun d il => storeRow (Z.of_nat (fst il)) (parseCSVLine (snd il)) d) newData
    (imap (fun i line => (i, line)) lines).

(** [lines] of [importFromCSV]: the lines that are not blank. *)
Definition importLines (text : string) : list string :=
  List.filter (fun line => negb (isEmpty (trim line))) (split newline text).

(** The lines from [startRow] on: all of them, or all but a first line
    of capital letters and commas. *)
Definition dataLines (text : string) : list string :=
  match importLines text with
  | [] => []
  | first :: _ => drop (if isHeader first then 1%nat else 0%nat) (importLines text)
  end.

(** [newData] of [importFromCSV]; [None] when there is no line and the
    handler returns. *)
Definition importedData (text : string) : option SpreadsheetData :=
  match importLines text with
  | [] => None
  | _ :: _ => Some (storeLines (dataLines text) ∅)
  end.

(** A check on the numbers of the rows of the grid, which include the
    numbers of its columns. *)
Definition smallAll (P : Z -> bool) : bool := forallb P (seqZ 0 ROW_COUNT).

(** Every key of the sheet is the key of a cell of the grid. *)
Definition onGrid (data : SpreadsheetData) : Prop :=
  forall key value, data !! key = Some value ->
    exists r c, 0 <= r < ROW_COUNT /\ 0 <= c < COLUMN_COUNT /\ key = cellKey (ofZ r) (ofZ c).


(** [importFromCSV] once the file is read: the new sheet is shown and
    recorded; a text without a line changes nothing. *)
Definition importFromCSV (now : Z) (text : string) (st : App.State) : App.State :=
  match importedData text with
  | Some newData => App.setData newData (App.addToHistory now newData st)
  | None => st
  end.


(** ** The keyboard of the Spreadsheet component *)

Module Spreadsheet.

Record CellPosition : Type := { row : Z; col : Z }.

(** The state of the component: the three [useState] cells. *)
Record View : Type := {
  editingCell : option CellPosition;
  editValue : string;
  selectedCell : option CellPosition
}.

(** The state of the application and of the component. *)
Record World : Type := { app : App.State; view : View }.

(** [cells[row][col]] of a render, the memo over the 50 rows and 10
    columns.  Outside the rows the read is a TypeError; outside the
    columns it gives [undefined], which is no edit value.  Both are
    [None]. *)
Definition cells (render : App.State) (row col : Z) : option string :=
  if (0 <=? row) && (row <? ROW_COUNT) && (0 <=? col) && (col <? COLUMN_COUNT)
  then Some (App.cellValue render (ofZ row) (ofZ col))
  else None.

(** [handleCellClick]; [render] is the state that the handler was made
    for, whose [cells] it reads. *)
Definition handleCellClick (render : App.State) (row col : Z) (w : World) : option World :=
  match cells render row col with
  | Some value =>
      Some {| app := app w;
              view := {| editingCell := Some {| row := row; col := col |};
                         editValue := value;
                         selectedCell := Some {| row := row; col := col |} |} |}
  | None => None
  end.

Definition handleInputChange (value : string) (w : World) : World :=
  {| app := app w;
     view := {| editingCell := editingCell (view w);
                editValue := value;
                selectedCell := selectedCell (view w) |} |}.

Definition handleInputBlur (now : Z) (w : World) : World :=
  match editingCell (view w) with
  | Some p =>
      {| app := App.updateCell now (ofZ (row p)) (ofZ (col p)) (trim (editValue (view w))) (app w);
         view := {| editingCell := None;
                    editValue := editValue (view w);
                    selectedCell := selectedCell (view w) |} |}
  | None => w
  end.

(** [handleInputBlur()] and then, under the test of the branch,
    [handleCellClick(row, col)], as five branches of
    [handleInputKeyDown] have it. *)
Definition blurThenClick (now : Z) (w : World) (test : bool) (row col : Z) : option World :=
  if test then handleCellClick (app w) row col (handleInputBlur now w)
  else Some (handleInputBlur now w).

Definition handleInputKeyDown (now : Z) (key : string) (shiftKey : bool) (w : World)
  : option World :=
  match editingCell (view w) with
  | None => Some w
  | Some p =>
      let row := row p in
      let col := col p in
      if String.eqb key "Enter" then
        blurThenClick now w (row <? ROW_COUNT - 1) (row + 1) col
      else if String.eqb key "Tab" then
        blurThenClick now w (col <? COLUMN_COUNT - 1) row (col + 1)
      else if String.eqb key "Escape" then
        match cells (app w) row col with
        | Some value =>
            Some {| app := app w;
                    view := {| editingCell := None;
                               editValue := value;
                               selectedCell := selectedCell (view w) |} |}
        | None => None
        end
      else if String.eqb key "ArrowUp" && negb shiftKey then
        blurThenClick now w (0 <? row) (row - 1) col
      else if String.eqb key "ArrowDown" && negb shiftKey then
        blurThenClick now w (row <? ROW_COUNT - 1) (row + 1) col
      else if String.eqb key "ArrowLeft" && negb shiftKey then
        blurThenClick now w (0 <? col) row (col - 1)
      else if String.eqb key "ArrowRight" && negb shiftKey then
        blurThenClick now w (col <? COLUMN_COUNT - 1) row (col + 1)
      else Some w
  end.

(** A position of the grid. *)
Definition inGrid (p : CellPosition) : Prop :=
  0 <= row p < ROW_COUNT /\ 0 <= col p < COLUMN_COUNT.

(** The cell under edit, if any, is a cell of the grid. *)
Definition editsGrid (v : View) : Prop :=
  forall p, editingCell v = Some p -> inGrid p.

(** The keys that hand the edit value to [updateCell]. *)
Definition commits (key : string) (shiftKey : bool) : bool :=
  String.eqb key "Enter" || String.eqb key "Tab" ||
  ((String.eqb key "ArrowUp" || String.eqb key "ArrowDown" ||
    String.eqb key "ArrowLeft" || String.eqb key "ArrowRight") && negb shiftKey).

End Spreadsheet.


(** ** The suggested changes

    The second version of App.tsx keeps the changes that the assistant
    suggests, each with a status, beside the sheet. *)

Module Diff.

Inductive Status : Type := pending | accepted | rejected.

Record PendingChange : Type := {
  id : string;
  row : number;
  col : number;
  oldValue : string;
  newValue : string;
  reason : option string;
  confidence : option number;
  status : Status
}.

Record State : Type := {
  app : App.State;
  pendingChanges : list PendingChange;
  showDiffPreview : bool
}.

(** The spread of a change with another status. *)
Definition withStatus (s : Status) (change : PendingChange) : PendingChange :=
  {| id := id change; row := row change; col := col change;
     oldValue := oldValue change; newValue := newValue change;
     reason := reason change; confidence := confidence change;
     status := s |}.

Definition isPending (c : PendingChange) : bool :=
  match status c with pending => true | _ => false end.

Definition addPendingChanges (changes : list PendingChange) (st : State) : State :=
  {| app := app st; pendingChanges := changes; showDiffPreview := true |}.

Definition acceptChange (i : string) (st : State) : State :=
  {| app := app st;
     pendingChanges :=
       map (fun change => if String.eqb (id change) i then withStatus accepted change else change)
           (pendingChanges st);
     showDiffPreview := showDiffPreview st |}.

Definition rejectChange (i : string) (st : State) : State :=
  {| app := app st;
     pendingChanges :=
       map (fun change => if String.eqb (id change) i then withStatus rejected change else change)
           (pendingChanges st);
     showDiffPreview := showDiffPreview st |}.

(** [updates] of [acceptAllChanges] *)
Definition updates (changes : list PendingChange) : list App.CellUpdate :=
  map (fun c => {| App.row := row c; App.col := col c; App.value := newValue c |})
      (List.filter isPending changes).

(** [acceptAllChanges], up to its timers, which close the preview and
    empty the list. *)
Definition acceptAllChanges (now : Z) (st : State) : State :=
  {| app := if (0 <? length (updates (pendingChanges st)))%nat
            then App.updateMultipleCells now (updates (pendingChanges st)) (app st)
            else app st;
     pendingChanges :=
       map (fun c => if isPending c then withStatus accepted c else c) (pendingChanges st);
     showDiffPreview := showDiffPreview st |}.

(** [rejectAllChanges], up to its timer. *)
Definition rejectAllChanges (st : State) : State :=
  {| app := app st;
     pendingChanges := map (withStatus rejected) (pendingChanges st);
     showDiffPreview := showDiffPreview st |}.

Definition closeDiffPreview (st : State) : State :=
  {| app := app st; pendingChanges := []; showDiffPreview := false |}.

End Diff.


(** ** The range operations of the assistant *)











(** * Properties *)

Section Reading.
Variable data : SpreadsheetData.

Lemma cellRefReplacer_lookup col rowNum key v :
  cellKey (rowIndex rowNum) (columnIndex col) = key ->
  data !! key = v ->
  cellRefReplacer data col rowNum = written (orElse v "0").
Proof. intros <- <-. reflexivity. Qed.

Lemma written_numberAt key :
  written (orElse (data !! key) "0") =
  if isNaN (numberAt data key) then "0" else toString (numberAt data key).
Proof.
  unfold written, numberAt.
  destruct (startsWith "=" (orElse (data !! key) "0")); reflexivity.
Qed.

Lemma cellRefReplacer_numberAt col rowNum :
  cellRefReplacer data col rowNum =
  let n := numberAt data (cellKey (rowIndex rowNum) (columnIndex col)) in
  if isNaN n then "0" else toString n.
Proof.
  rewrite (cellRefReplacer_lookup col rowNum _ _ eq_refl eq_refl).
  apply written_numberAt.
Qed.

Lemma visit_numberAt r c acc :
  visit data r c acc =
  let n := numberAt data (cellKey (ofZ r) (ofZ c)) in
  if isNaN n then acc else tally acc n.
Proof.
  unfold visit, numberAt, tally.
  destruct (startsWith "=" (orElse (data !! cellKey (ofZ r) (ofZ c)) "0")); simpl; [reflexivity|].
  destruct (isNaN (parseFloat (orElse (data !! cellKey (ofZ r) (ofZ c)) "0"))); reflexivity.
Qed.
End Reading.

Section Alike.
Variables d d' : SpreadsheetData.
Hypothesis same : alike d d'.

Lemma alike_cellRefReplacer col rowNum :
  cellRefReplacer d col rowNum = cellRefReplacer d' col rowNum.
Proof. rewrite !cellRefReplacer_numberAt, same. reflexivity. Qed.

Lemma alike_visit r c acc : visit d r c acc = visit d' r c acc.
Proof. rewrite !visit_numberAt, same. reflexivity. Qed.

Lemma alike_row r cols : forall acc,
  foldl (fun acc c => visit d r c acc) acc cols =
  foldl (fun acc c => visit d' r c acc) acc cols.
Proof.
  induction cols as [|c cols IH]; intros acc; simpl; [reflexivity|].
  rewrite alike_visit. apply IH.
Qed.

Lemma alike_rows rows cols : forall acc,
  foldl (fun acc r => foldl (fun acc c => visit d r c acc) acc cols) acc rows =
  foldl (fun acc r => foldl (fun acc c => visit d' r c acc) acc cols) acc rows.
Proof.
  induction rows as [|r rows IH]; intros acc; simpl; [reflexivity|].
  rewrite alike_row. apply IH.
Qed.

Lemma alike_scanRange a b c e : scanRange d a b c e = scanRange d' a b c e.
Proof.
  unfold scanRange.
  destruct (counter a c) as [rows|]; [|reflexivity].
  destruct (counter b e) as [cols|]; [|reflexivity].
  rewrite alike_rows. reflexivity.
Qed.

Lemma alike_sumReplacer sc sr ec er :
  sumReplacer d sc sr ec er = sumReplacer d' sc sr ec er.
Proof. unfold sumReplacer. rewrite alike_scanRange. reflexivity. Qed.

Lemma alike_avgReplacer sc sr ec er :
  avgReplacer d sc sr ec er = avgReplacer d' sc sr ec er.
Proof. unfold avgReplacer. rewrite alike_scanRange. reflexivity. Qed.
End Alike.

Lemma replaceFrom_ext (f g : string -> option (option string * nat)) :
  (forall s, f s = g s) ->
  forall s skip, replaceFrom f skip s = replaceFrom g skip s.
Proof.
  intros E s. induction s as [|c r IH]; intros skip; simpl; [reflexivity|].
  destruct skip as [|k]; [|apply IH].
  rewrite E. destruct (g (String c r)) as [[[text|] n]|]; rewrite ?IH; reflexivity.
Qed.

Lemma alike_substituted d d' formula :
  alike d d' -> substituted formula d = substituted formula d'.
Proof.
  intros same. unfold substituted.
  assert (E1 : forall s, replaceCellRefs (cellRefReplacer d) s = replaceCellRefs (cellRefReplacer d') s).
  { intros s. apply replaceFrom_ext. intros t.
    destruct (cellRefRegex t) as [[[col rowNum] n]|]; [|reflexivity].
    rewrite (alike_cellRefReplacer d d' same). reflexivity. }
  assert (E2 : forall s, replaceRangeCalls sumRegex (sumReplacer d) s
                         = replaceRangeCalls sumRegex (sumReplacer d') s).
  { intros s. apply replaceFrom_ext. intros t.
    destruct (sumRegex t) as [[[[[sc sr] ec] er] n]|]; [|reflexivity].
    rewrite (alike_sumReplacer d d' same). reflexivity. }
  assert (E3 : forall s, replaceRangeCalls avgRegex (avgReplacer d) s
                         = replaceRangeCalls avgRegex (avgReplacer d') s).
  { intros s. apply replaceFrom_ext. intros t.
    destruct (avgRegex t) as [[[[[sc sr] ec] er] n]|]; [|reflexivity].
    rewrite (alike_avgReplacer d d' same). reflexivity. }
  rewrite E1. destruct (replaceCellRefs (cellRefReplacer d') _) as [e1|]; simpl; [|reflexivity].
  rewrite E2. destruct (replaceRangeCalls sumRegex (sumReplacer d') e1) as [e2|]; simpl; [|reflexivity].
  apply E3.
Qed.

Lemma alike_evaluateFormula d d' formula row col :
  alike d d' -> evaluateFormula formula row col d = evaluateFormula formula row col d'.
Proof.
  intros same. unfold evaluateFormula.
  rewrite (alike_substituted d d' formula same). reflexivity.
Qed.

(** Replacing an absent entry by ["0"], or a formula by another formula,
    leaves every key its number. *)
Lemma alike_insert_zero (data : SpreadsheetData) key :
  data !! key = None -> alike (<[key:="0"]> data) data.
Proof.
  intros H k. unfold numberAt.
  destruct (decide (key = k)) as [->|Hne].
  - rewrite lookup_insert_eq, H. reflexivity.
  - rewrite lookup_insert_ne by exact Hne. reflexivity.
Qed.

Lemma alike_insert_formula (data : SpreadsheetData) key v v' :
  data !! key = Some v -> startsWith "=" v = true -> startsWith "=" v' = true ->
  alike (<[key:=v']> data) data.
Proof.
  intros H Hv Hv' k. unfold numberAt.
  destruct (decide (key = k)) as [->|Hne].
  - rewrite lookup_insert_eq, H.
    destruct v as [|a v]; [discriminate Hv|].
    destruct v' as [|a' v']; [discriminate Hv'|].
    simpl orElse. rewrite Hv, Hv'. reflexivity.
  - rewrite lookup_insert_ne by exact Hne. reflexivity.
Qed.

(** The first replacement on a given text, whatever the replacer, then
    the content of the cells it reads. *)
Ltac first_pass :=
  unfold evaluateFormula, substituted;
  match goal with
  | |- context [replaceCellRefs (cellRefReplacer ?d) ?e] =>
      let t := eval vm_compute in (fun f => replaceCellRefs f e) in
      change (replaceCellRefs (cellRefReplacer d) e) with (t (cellRefReplacer d));
      cbv beta
  end.

Ltac read_cell col rowNum key H :=
  match goal with
  | |- context [cellRefReplacer ?d col rowNum] =>
      rewrite (cellRefReplacer_lookup d col rowNum key _ ltac:(vm_compute; reflexivity) H)
  end.

(** ** Literal content *)

(** C9: a string that does not start with [=] is returned as it is, by
    [evaluateFormula] and by [getDisplayValue], for every snapshot: no
    replacement and no arithmetic touch it. *)
Theorem literal_returned_unchanged (value : string) (row col : Z) (data : SpreadsheetData) :
  startsWith "=" value = false ->
  evaluateFormula value row col data = Shown value /\
  getDisplayValue data value row col = Shown value.
Proof.
  intros H. split.
  - unfold evaluateFormula. rewrite H. reflexivity.
  - unfold getDisplayValue. rewrite H. destruct value; reflexivity.
Qed.

Lemma literal_returned_unchanged_witness :
  startsWith "=" "12=3" = false /\
  evaluateFormula "12=3" 0 0 (sheet [("0-0", "5")]) = Shown "12=3" /\
  getDisplayValue (sheet [("0-0", "5")]) "12=3" 0 0 = Shown "12=3".
Proof.
  split; [reflexivity|].
  apply (literal_returned_unchanged "12=3" 0 0 (sheet [("0-0", "5")])). reflexivity.
Defined.

(** ** Absent cells *)

(** C10: inside [evaluateFormula] an absent cell cannot be told from a
    cell that holds ["0"]: writing ["0"] under an absent key changes
    neither the text handed to [Function] nor the result, for every
    formula; the range loops count such a cell as the number 0; and
    [getCellValue] reports the same absent cell as the empty string. *)
Theorem absent_cell_reads_as_zero
    (formula : string) (row col : Z) (data : SpreadsheetData) (key : string) :
  data !! key = None ->
  substituted formula (<[key:="0"]> data) = substituted formula data /\
  evaluateFormula formula row col (<[key:="0"]> data) = evaluateFormula formula row col data /\
  (forall r c acc, cellKey (ofZ r) (ofZ c) = key -> visit data r c acc = tally acc zero) /\
  (forall r c, cellKey r c = key -> getCellValue data r c = "").
Proof.
  intros H. repeat split.
  - apply alike_substituted, alike_insert_zero, H.
  - apply alike_evaluateFormula, alike_insert_zero, H.
  - intros r c acc <-. unfold visit. rewrite H. reflexivity.
  - intros r c <-. unfold getCellValue. rewrite H. reflexivity.
Qed.

Lemma absent_cell_reads_as_zero_witness :
  sheet [("0-32", "4")] !! "1-32" = None /\
  evaluateFormula "=AVERAGE(a1:a2)" 0 0 (<["1-32":="0"]> (sheet [("0-32", "4")]))
  = evaluateFormula "=AVERAGE(a1:a2)" 0 0 (sheet [("0-32", "4")]).
Proof.
  split; [vm_compute; reflexivity|].
  apply (absent_cell_reads_as_zero "=AVERAGE(a1:a2)" 0 0 (sheet [("0-32", "4")]) "1-32").
  vm_compute; reflexivity.
Defined.

(** ** References to formula cells *)

(** C2: replacement does not recurse.  A reference to a cell whose
    content starts with [=] is replaced by [0]; the range loops pass over
    such a cell; so the result of a formula does not depend on which
    formula a cell it refers to holds.  With A1 = [=B1] and B1 = [=A1],
    each of the two evaluates to the display value [0]. *)
Theorem formula_cell_contributes_zero (data : SpreadsheetData) :
  (forall col rowNum,
      startsWith "=" (orElse (data !! cellKey (rowIndex rowNum) (columnIndex col)) "0") = true ->
      cellRefReplacer data col rowNum = "0") /\
  (forall r c acc,
      startsWith "=" (orElse (data !! cellKey (ofZ r) (ofZ c)) "0") = true ->
      visit data r c acc = acc) /\
  (forall key v v' formula row col,
      data !! key = Some v -> startsWith "=" v = true -> startsWith "=" v' = true ->
      evaluateFormula formula row col (<[key:=v']> data) = evaluateFormula formula row col data) /\
  (forall row col,
      data !! "0-0" = Some "=B1" -> data !! "0-1" = Some "=A1" ->
      evaluateFormula "=B1" row col data = Shown "0" /\
      evaluateFormula "=A1" row col data = Shown "0").
Proof.
  repeat split.
  - intros col rowNum H. unfold cellRefReplacer. rewrite H. reflexivity.
  - intros r c acc H. unfold visit. rewrite H. reflexivity.
  - intros key v v' formula row col H Hv Hv'.
    apply alike_evaluateFormula, (alike_insert_formula data key v v' H Hv Hv').
  - first_pass. read_cell "B" "1" "0-1" H0. vm_compute. reflexivity.
  - first_pass. read_cell "A" "1" "0-0" H. vm_compute. reflexivity.
Qed.

Lemma formula_cell_contributes_zero_witness :
  evaluateFormula "=B1" 0 0 (sheet [("0-0", "=B1"); ("0-1", "=A1")]) = Shown "0" /\
  evaluateFormula "=A1" 0 1 (sheet [("0-0", "=B1"); ("0-1", "=A1")]) = Shown "0".
Proof.
  destruct (formula_cell_contributes_zero (sheet [("0-0", "=B1"); ("0-1", "=A1")]))
    as (_ & _ & _ & H).
  split; [apply (H 0 0) | apply (H 0 1)]; vm_compute; reflexivity.
Defined.

(** ** Columns *)


Lemma columnIndex_toInteger c rest :
  toInteger (columnIndex (String c rest)) = Some (code c - 65).
Proof.
  destruct c as [b0 b1 b2 b3 b4 b5 b6 b7].
  destruct b0, b1, b2, b3, b4, b5, b6, b7; vm_compute; reflexivity.
Qed.


(** ** The range loops *)

Lemma visit_lookup (data : SpreadsheetData) r c key v acc :
  cellKey (ofZ r) (ofZ c) = key ->
  data !! key = v ->
  visit data r c acc =
  if negb (startsWith "=" (orElse v "0")) then
    if negb (isNaN (parseFloat (orElse v "0"))) then tally acc (parseFloat (orElse v "0")) else acc
  else acc.
Proof. intros <- <-. reflexivity. Qed.

Lemma scan_row (data : SpreadsheetData) r cols : forall acc,
  foldl (fun acc c => visit data r c acc) acc cols =
  foldl tally acc
    (List.filter (fun n => negb (isNaN n))
       (map (fun rc => numberAt data (cellKey (ofZ (fst rc)) (ofZ (snd rc))))
            (map (fun c => (r, c)) cols))).
Proof.
  induction cols as [|c cols IH]; intros acc; simpl; [reflexivity|].
  rewrite visit_numberAt. cbv zeta.
  destruct (isNaN (numberAt data (cellKey (ofZ r) (ofZ c)))); simpl; apply IH.
Qed.

Lemma scan_rows (data : SpreadsheetData) rows cols : forall acc,
  foldl (fun acc r => foldl (fun acc c => visit data r c acc) acc cols) acc rows =
  foldl tally acc (contributions data rows cols).
Proof.
  unfold contributions.
  induction rows as [|r rows IH]; intros acc; simpl; [reflexivity|].
  rewrite map_app, List.filter_app, foldl_app, <- IH, scan_row. reflexivity.
Qed.


Lemma tally_sum nums : forall acc,
  fst (foldl tally acc nums) = foldl add (fst acc) nums.
Proof.
  induction nums as [|n nums IH]; intros acc; simpl; [reflexivity|].
  rewrite IH. reflexivity.
Qed.

Lemma tally_count nums : forall acc,
  snd (foldl tally acc nums) = snd acc + Z.of_nat (length nums).
Proof.
  induction nums as [|n nums IH]; intros acc; [simpl; lia|].
  cbn [foldl length]. rewrite IH. simpl. lia.
Qed.

Lemma contributions_length (data : SpreadsheetData) rows cols :
  (length (contributions data rows cols) <= length rows * length cols)%nat.
Proof.
  unfold contributions.
  etransitivity; [apply List.filter_length_le|].
  rewrite length_map, length_prod. reflexivity.
Qed.

Lemma scanRange_contributions (data : SpreadsheetData) a b c e rows cols :
  counter a c = Some rows -> counter b e = Some cols ->
  Z.of_nat (length rows * length cols) < 2 ^ 53 ->
  scanRange data a b c e =
  Some (foldl add zero (contributions data rows cols),
        Z.of_nat (length (contributions data rows cols))).
Proof.
  intros Hr Hc Hsmall. unfold scanRange. rewrite Hr, Hc, scan_rows.
  pose proof (contributions_length data rows cols) as Hlen.
  rewrite tally_count. simpl snd.
  destruct (0 + Z.of_nat (length (contributions data rows cols)) <? 2 ^ 53) eqn:B.
  - f_equal. apply injective_projections; simpl.
    + apply tally_sum.
    + rewrite tally_count. reflexivity.
  - apply Z.ltb_ge in B. lia.
Qed.

(** C3, as the code has it: over a rectangle that the loops walk through,
    the text put in place of an AVERAGE call is the sum over the count
    of the cells that contribute, in the order rows then columns, where an
    absent or empty entry is read as the string ["0"] (and so is counted
    as the number 0), a cell contributes when its content so read does not
    start with [=] and parses as a number, and the text is ["0"] when no
    cell contributes. *)
Theorem average_counts_absent_cells_as_zero
    (data : SpreadsheetData) (startCol startRow endCol endRow : string) (rows cols : list Z) :
  counter (rowIndex startRow) (rowIndex endRow) = Some rows ->
  counter (columnIndex startCol) (columnIndex endCol) = Some cols ->
  Z.of_nat (length rows * length cols) < 2 ^ 53 ->
  avgReplacer data startCol startRow endCol endRow
  = Some (averageText (contributions data rows cols)).
Proof.
  intros Hr Hc Hsmall. unfold avgReplacer, averageText.
  rewrite (scanRange_contributions data _ _ _ _ rows cols Hr Hc Hsmall).
  destruct (contributions data rows cols) as [|n nums]; [reflexivity|].
  cbn [length Nat.eqb].
  replace (0 <? Z.of_nat (S (length nums))) with true by (symmetry; apply Z.ltb_lt; lia).
  reflexivity.
Qed.

Lemma average_counts_absent_cells_as_zero_witness :
  counter (rowIndex "1") (rowIndex "2") = Some [0; 1] /\
  counter (columnIndex "A") (columnIndex "A") = Some [0] /\
  Z.of_nat (length [0; 1] * length [0]) < 2 ^ 53 /\
  avgReplacer (sheet [("0-0", "4")]) "A" "1" "A" "2"
  = Some (averageText (contributions (sheet [("0-0", "4")]) [0; 1] [0])).
Proof.
  assert (Hr : counter (rowIndex "1") (rowIndex "2") = Some [0; 1]) by (vm_compute; reflexivity).
  assert (Hc : counter (columnIndex "A") (columnIndex "A") = Some [0]) by (vm_compute; reflexivity).
  assert (Hs : Z.of_nat (length [0; 1] * length [0]) < 2 ^ 53) by (vm_compute; reflexivity).
  split; [exact Hr|]. split; [exact Hc|]. split; [exact Hs|].
  exact (average_counts_absent_cells_as_zero (sheet [("0-0", "4")]) "A" "1" "A" "2" [0; 1] [0] Hr Hc Hs).
Defined.

(** C3 as the specification words it fails: with A1 = 4 and A2 absent,
    the specification's average over A1:A2 is 4 (one cell counted), the
    replacer writes 2 (two cells counted), and so does a formula that
    reaches the replacer. *)
Lemma average_spec_counterexample :
  Spec.average (sheet [("0-0", "4")]) [0; 1] [0] = "4" /\
  avgReplacer (sheet [("0-0", "4")]) "A" "1" "A" "2" = Some "2" /\
  evaluateFormula "=AVERAGE(a1:a2)" 0 0 (sheet [("0-32", "4")]) = Shown "2".
Proof. vm_compute. repeat split; reflexivity. Qed.




(** ** The order of the replacements *)

(** C1, at the input of the specification: the references are replaced
    first, so [SUM(A1:A3)] becomes [SUM(1:0)] before [sumRegex] is tried;
    [sumRegex] finds no address left, the text does not compile, and the
    display is the error marker, although the replacer of [sumRegex]
    gives 3 for the same range. *)
Theorem sum_of_upper_case_range (data : SpreadsheetData) (row col : Z) :
  data !! "0-0" = Some "1" -> data !! "1-0" = Some "2" -> data !! "2-0" = Some "x" ->
  substituted "=SUM(A1:A3)" data = Some "SUM(1:0)" /\
  evaluateFormula "=SUM(A1:A3)" row col data = Shown errorMarker /\
  sumReplacer data "A" "1" "A" "3" = Some "3".
Proof.
  intros H1 H2 H3. split; [|split].
  - unfold substituted.
    match goal with
    | |- context [replaceCellRefs (cellRefReplacer ?d) ?e] =>
        let t := eval vm_compute in (fun f => replaceCellRefs f e) in
        change (replaceCellRefs (cellRefReplacer d) e) with (t (cellRefReplacer d)); cbv beta
    end.
    read_cell "A" "1" "0-0" H1. read_cell "A" "3" "2-0" H3. vm_compute. reflexivity.
  - first_pass. read_cell "A" "1" "0-0" H1. read_cell "A" "3" "2-0" H3. vm_compute. reflexivity.
  - unfold sumReplacer, scanRange.
    replace (counter (rowIndex "1") (rowIndex "3")) with (Some [0; 1; 2]) by (vm_compute; reflexivity).
    replace (counter (columnIndex "A") (columnIndex "A")) with (Some [0]) by (vm_compute; reflexivity).
    cbn [foldl].
    rewrite (visit_lookup data 0 0 "0-0" _ _ ltac:(vm_compute; reflexivity) H1).
    rewrite (visit_lookup data 1 0 "1-0" _ _ ltac:(vm_compute; reflexivity) H2).
    rewrite (visit_lookup data 2 0 "2-0" _ _ ltac:(vm_compute; reflexivity) H3).
    vm_compute. reflexivity.
Qed.

Lemma sum_of_upper_case_range_witness :
  evaluateFormula "=SUM(A1:A3)" 0 0 (sheet [("0-0", "1"); ("1-0", "2"); ("2-0", "x")])
  = Shown errorMarker.
Proof.
  apply (sum_of_upper_case_range (sheet [("0-0", "1"); ("1-0", "2"); ("2-0", "x")]) 0 0);
    vm_compute; reflexivity.
Defined.

(** ** Division by zero *)

(** C5, as the code has it: there is no check of the divisor; the
    quotient is the binary64 one, and [=1/0] displays [Infinity], [=-1/0]
    displays [-Infinity] and [=0/0] displays [NaN], for every snapshot. *)
Theorem division_by_zero_is_displayed (data : SpreadsheetData) (row col : Z) :
  evaluateFormula "=1/0" row col data = Shown "Infinity" /\
  evaluateFormula "=-1/0" row col data = Shown "-Infinity" /\
  evaluateFormula "=0/0" row col data = Shown "NaN".
Proof. vm_compute. repeat split; reflexivity. Qed.

(** C5 as the specification words it fails: [=1/0] does not display the
    error marker. *)
Lemma division_by_zero_counterexample :
  evaluateFormula "=1/0" 0 0 (sheet []) = Shown "Infinity" /\
  evaluateFormula "=1/0" 0 0 (sheet []) <> Shown errorMarker.
Proof. vm_compute. split; [reflexivity | discriminate]. Qed.

(** ** Row zero *)

(** C6, as the code has it: no address is refused.  Row digits that parse
    to 0 give the row index -1, the key read is [-1-] followed by the
    column, and the reference is replaced like any other; [=A0+1]
    displays 1 for every snapshot with no entry under [-1-0]. *)
Theorem row_zero_is_read_at_minus_one (data : SpreadsheetData) :
  (forall col,
      cellRefReplacer data col "0"
      = written (orElse (data !! ("-1-" +:+ toString (columnIndex col))) "0")) /\
  (forall row col,
      data !! "-1-0" = None -> evaluateFormula "=A0+1" row col data = Shown "1").
Proof.
  split.
  - intros col.
    apply (cellRefReplacer_lookup data col "0" ("-1-" +:+ toString (columnIndex col)));
      [|reflexivity].
    unfold cellKey.
    replace (toString (rowIndex "0")) with "-1" by (vm_compute; reflexivity).
    reflexivity.
  - intros row col H. first_pass. read_cell "A" "0" "-1-0" H. vm_compute. reflexivity.
Qed.

Lemma row_zero_is_read_at_minus_one_witness :
  sheet [("0-0", "5")] !! "-1-0" = None /\
  evaluateFormula "=A0+1" 0 0 (sheet [("0-0", "5")]) = Shown "1".
Proof.
  split; [vm_compute; reflexivity|].
  apply (row_zero_is_read_at_minus_one (sheet [("0-0", "5")])). vm_compute; reflexivity.
Defined.

(** C6 as the specification words it fails: [=A0+1] displays 1, not the
    error marker. *)
Lemma row_zero_counterexample :
  evaluateFormula "=A0+1" 0 0 (sheet []) = Shown "1" /\
  evaluateFormula "=A0+1" 0 0 (sheet []) <> Shown errorMarker.
Proof. vm_compute. split; [reflexivity | discriminate]. Qed.

(** ** Column letters *)

(** C7, as the code has it: the column index is the code of the first
    letter minus 65, whatever follows it in the letter run; for a single
    letter this is the base-26 value of the specification, and an address
    with several letters reads the column of its first letter. *)
Theorem column_is_first_letter (c : ascii) (rest : string) :
  toInteger (columnIndex (String c rest)) = Some (code c - 65) /\
  Spec.column (String c EmptyString) = code c - 65 /\
  (forall data rowNum,
      cellRefReplacer data (String c rest) rowNum
      = cellRefReplacer data (String c EmptyString) rowNum).
Proof.
  split; [apply columnIndex_toInteger|]. split.
  - unfold Spec.column. simpl. lia.
  - intros data rowNum. reflexivity.
Qed.

(** C7 as the specification words it fails: the base-26 value of AA
    is 26, the code decodes it to column 0, and [=AA1] shows the content
    of A1. *)
Lemma column_counterexample :
  Spec.column "AA" = 26 /\
  toInteger (columnIndex "AA") = Some 0 /\
  evaluateFormula "=AA1" 0 0 (sheet [("0-0", "7"); ("0-26", "9")]) = Shown "7".
Proof. vm_compute. repeat split; reflexivity. Qed.

(** ** Text that does not compile *)













(** ** The text of a number *)

Lemma app_cons c a b : String c a +:+ b = String c (a +:+ b).
Proof. reflexivity. Qed.

Lemma app_nil_l b : "" +:+ b = b.
Proof. reflexivity. Qed.

Ltac app_simpl := rewrite ?app_cons, ?app_nil_l; simpl.

Lemma app_empty_r s : s +:+ "" = s.
Proof. induction s as [|c s IH]; app_simpl; [reflexivity | rewrite IH; reflexivity]. Qed.

Lemma app_assoc_s a b c : (a +:+ b) +:+ c = a +:+ (b +:+ c).
Proof. induction a as [|x a IH]; app_simpl; [reflexivity | rewrite IH; reflexivity]. Qed.




Lemma allS_app p a b : allS p (a +:+ b) = allS p a && allS p b.
Proof.
  induction a as [|x a IH]; app_simpl; [reflexivity|].
  rewrite IH, andb_assoc. reflexivity.
Qed.





Lemma takeS_dropS n : forall s, takeS n s +:+ dropS n s = s.
Proof.
  induction n as [|n IH]; intros [|c s]; simpl; app_simpl; try reflexivity.
  rewrite IH. reflexivity.
Qed.











Lemma len_cons c s : len (String c s) = S (len s).
Proof. reflexivity. Qed.



























(** ** Malformed text *)







(** * The rest of the application *)

(** ** The history of the sheet *)

Lemma addToHistory_spec now newData st :
  App.inv st -> App.isUpdatingRef st = false ->
  let st' := App.addToHistory now newData st in
  App.inv st' /\
  App.history st' !! App.historyIndex st' = Some {| App.data := newData; App.timestamp := now |} /\
  (App.historyIndex st' = length (App.history st') - 1)%nat /\
  (0 < App.historyIndex st')%nat /\
  App.history st' !! (App.historyIndex st' - 1)%nat = App.history st !! App.historyIndex st /\
  App.historyIndex st' = Nat.min (S (App.historyIndex st)) 49.
Proof.
  intros [Hi Hl] Hu. unfold App.addToHistory. rewrite Hu. cbv zeta.
  set (l := take (S (App.historyIndex st)) (App.history st)
            ++ [{| App.data := newData; App.timestamp := now |}]).
  assert (Ll : length l = S (S (App.historyIndex st))).
  { unfold l. rewrite length_app, length_take_le by lia. cbn [length]. lia. }
  assert (Last : l !! S (App.historyIndex st)
                 = Some {| App.data := newData; App.timestamp := now |}).
  { unfold l. rewrite lookup_app_r by (rewrite length_take_le by lia; lia).
    rewrite length_take_le by lia. rewrite Nat.sub_diag. reflexivity. }
  assert (Prev : l !! App.historyIndex st = App.history st !! App.historyIndex st).
  { unfold l. rewrite lookup_app_l by (rewrite length_take_le by lia; lia).
    apply lookup_take_lt. lia. }
  destruct (50 <? length l)%nat eqn:E; unfold App.inv; cbn [App.history App.historyIndex].
  - apply Nat.ltb_lt in E.
    assert (I49 : App.historyIndex st = 49%nat) by lia.
    rewrite length_drop, Ll, I49. cbn [Nat.sub].
    rewrite !lookup_drop. cbn [Nat.add]. rewrite <- I49.
    repeat split; try lia; assumption.
  - apply Nat.ltb_ge in E. rewrite Ll. cbn [Nat.sub].
    rewrite Nat.sub_0_r.
    repeat split; try lia; assumption.
Qed.

Lemma setData_inv newData st : App.inv st -> App.inv (App.setData newData st).
Proof. intros H. exact H. Qed.

Lemma addToHistory_inv now newData st : App.inv st -> App.inv (App.addToHistory now newData st).
Proof.
  intros H. destruct (App.isUpdatingRef st) eqn:E.
  - unfold App.addToHistory. rewrite E. exact H.
  - apply (addToHistory_spec now newData st H E).
Qed.

(** X1: the history stays sound.  From a state whose index points into a
    history of at most 50 states, every handler leads to such a state, and
    [undo] and [redo] find the state they read. *)
Theorem history_stays_sound (now : Z) (st : App.State) :
  App.inv st ->
  (forall row col value, App.inv (App.updateCell now row col value st)) /\
  (forall updates, App.inv (App.updateMultipleCells now updates st)) /\
  (exists st', App.undo st = Some st' /\ App.inv st') /\
  (exists st', App.redo st = Some st' /\ App.inv st') /\
  App.inv (App.timer st).
Proof.
  intros H. split; [|split; [|split; [|split]]].
  - intros row col value. apply setData_inv, addToHistory_inv, H.
  - intros updates. apply setData_inv, addToHistory_inv, H.
  - destruct H as [Hi Hl]. unfold App.undo.
    destruct (0 <? App.historyIndex st)%nat eqn:E; [|exists st; split; [reflexivity | split; assumption]].
    apply Nat.ltb_lt in E.
    destruct (lookup_lt_is_Some_2 (App.history st) (App.historyIndex st - 1)%nat ltac:(lia)) as [h Hh].
    rewrite Hh. eexists. split; [reflexivity|]. unfold App.inv. simpl. split; lia.
  - destruct H as [Hi Hl]. unfold App.redo.
    destruct (App.historyIndex st <? length (App.history st) - 1)%nat eqn:E;
      [|exists st; split; [reflexivity | split; assumption]].
    apply Nat.ltb_lt in E.
    destruct (lookup_lt_is_Some_2 (App.history st) (App.historyIndex st + 1)%nat ltac:(lia)) as [h Hh].
    rewrite Hh. eexists. split; [reflexivity|]. unfold App.inv. simpl. split; lia.
  - exact H.
Qed.

Lemma history_stays_sound_witness :
  App.inv (App.initial 0) /\
  App.inv (App.updateCell 1 (ofZ 0) (ofZ 0) "5" (App.initial 0)) /\
  exists st', App.undo (App.initial 0) = Some st' /\ App.inv st'.
Proof.
  assert (H : App.inv (App.initial 0)) by (split; simpl; lia).
  destruct (history_stays_sound 1 (App.initial 0) H) as (H1 & _ & H3 & _).
  split; [exact H|]. split; [apply H1 | exact H3].
Defined.

Lemma undo_after_record now newData st :
  App.inv st -> App.synced st -> App.isUpdatingRef st = false ->
  exists st', App.undo (App.setData newData (App.addToHistory now newData st)) = Some st' /\
              App.spreadsheetData st' = App.spreadsheetData st /\
              App.spreadsheetData (App.setData newData (App.addToHistory now newData st)) = newData.
Proof.
  intros Hinv (h & Hh & Hd) Hu.
  destruct (addToHistory_spec now newData st Hinv Hu) as (_ & _ & _ & Hpos & Hprev & _).
  unfold App.undo. cbn [App.setData App.historyIndex App.history].
  replace (0 <? App.historyIndex (App.addToHistory now newData st))%nat with true
    by (symmetry; apply Nat.ltb_lt; exact Hpos).
  rewrite Hprev, Hh. eexists. split; [reflexivity|]. split; [exact Hd | reflexivity].
Qed.

(** X2: one [undo] takes an edit back.  When the sheet on display is the
    state the index points at and no undo is in flight, [undo] after
    [updateCell], or after a whole [updateMultipleCells], shows the sheet
    as it was before. *)
Theorem undo_takes_edit_back (now : Z) (st : App.State) :
  App.inv st -> App.synced st -> App.isUpdatingRef st = false ->
  (forall row col value,
      exists st', App.undo (App.updateCell now row col value st) = Some st' /\
                  App.spreadsheetData st' = App.spreadsheetData st) /\
  (forall updates,
      exists st', App.undo (App.updateMultipleCells now updates st) = Some st' /\
                  App.spreadsheetData st' = App.spreadsheetData st).
Proof.
  intros Hinv Hs Hu. split.
  - intros row col value.
    destruct (undo_after_record now (<[cellKey row col:=value]> (App.spreadsheetData st)) st Hinv Hs Hu)
      as (st' & H1 & H2 & _).
    exists st'. split; assumption.
  - intros updates.
    destruct (undo_after_record now (App.applyUpdates updates (App.spreadsheetData st)) st Hinv Hs Hu)
      as (st' & H1 & H2 & _).
    exists st'. split; assumption.
Qed.

Lemma initial_sound now : App.inv (App.initial now) /\ App.synced (App.initial now).
Proof.
  split; [split; simpl; lia|]. eexists. split; reflexivity.
Qed.

Lemma undo_takes_edit_back_witness :
  exists st', App.undo (App.updateCell 1 (ofZ 0) (ofZ 0) "5" (App.initial 0)) = Some st' /\
              App.spreadsheetData st' = App.spreadsheetData (App.initial 0).
Proof.
  destruct (initial_sound 0) as [Hi Hs].
  destruct (undo_takes_edit_back 1 (App.initial 0) Hi Hs eq_refl) as [H _].
  exact (H (ofZ 0) (ofZ 0) "5").
Defined.


(** X4: an edit closes the way forward.  After [updateCell] the index is
    the last of the history, whatever states lay beyond it before, and
    [redo] changes nothing. *)
Theorem edit_discards_redo (now : Z) (row col : number) (value : string) (st : App.State) :
  App.inv st -> App.isUpdatingRef st = false ->
  let st' := App.updateCell now row col value st in
  (App.historyIndex st' = length (App.history st') - 1)%nat /\
  App.redo st' = Some st'.
Proof.
  intros Hinv Hu st'.
  destruct (addToHistory_spec now (<[cellKey row col:=value]> (App.spreadsheetData st)) st Hinv Hu)
    as (_ & _ & Hlast & _).
  assert (L : (App.historyIndex st' = length (App.history st') - 1)%nat) by exact Hlast.
  split; [exact L|].
  unfold App.redo. rewrite L at 1.
  rewrite Nat.ltb_irrefl. reflexivity.
Qed.

(** X5: an edit made before the timer of an [undo] has run changes the
    sheet and leaves the history as it is; once the timer has run, edits
    are recorded again. *)
Theorem edit_while_undo_in_flight (now : Z) (row col : number) (value : string) (st : App.State) :
  App.isUpdatingRef st = true ->
  App.history (App.updateCell now row col value st) = App.history st /\
  App.historyIndex (App.updateCell now row col value st) = App.historyIndex st /\
  App.spreadsheetData (App.updateCell now row col value st)
  = <[cellKey row col:=value]> (App.spreadsheetData st) /\
  (App.inv st ->
   App.history (App.updateCell now row col value (App.timer st))
     !! App.historyIndex (App.updateCell now row col value (App.timer st))
   = Some {| App.data := <[cellKey row col:=value]> (App.spreadsheetData st);
             App.timestamp := now |}).
Proof.
  intros Hu. unfold App.updateCell at 1 2 3, App.addToHistory. rewrite Hu.
  repeat split; try reflexivity.
  intros Hinv.
  apply (addToHistory_spec now (<[cellKey row col:=value]> (App.spreadsheetData st)) (App.timer st));
    [exact Hinv | reflexivity].
Qed.

(** ** The keys of the grid *)

Lemma sameNumber_eq x y : sameNumber x y = true -> x = y.
Proof.
  destruct x as [a|a| |a m e], y as [b|b| |b n f]; simpl; try discriminate.
  - intros H. apply Bool.eqb_prop in H. congruence.
  - intros H. apply Bool.eqb_prop in H. congruence.
  - reflexivity.
  - intros H. apply andb_true_iff in H. destruct H as [H He].
    apply andb_true_iff in H. destruct H as [Hs Hm].
    apply Bool.eqb_prop in Hs. apply Pos.eqb_eq in Hm. apply Z.eqb_eq in He. congruence.
Qed.

Lemma gridAll_spec P :
  gridAll P = true ->
  forall r c, 0 <= r < ROW_COUNT -> 0 <= c < COLUMN_COUNT -> P r c = true.
Proof.
  unfold gridAll. intros H r c Hr Hc.
  rewrite forallb_forall in H.
  assert (Ir : In r (seqZ 0 ROW_COUNT)) by (apply list_elem_of_In, elem_of_seqZ; lia).
  specialize (H r Ir). rewrite forallb_forall in H.
  apply H. apply list_elem_of_In, elem_of_seqZ. lia.
Qed.

Lemma grid_keys_check :
  gridAll (fun r c =>
    sameNumber (keyRow (cellKey (ofZ r) (ofZ c))) (ofZ r) &&
    sameNumber (keyCol (cellKey (ofZ r) (ofZ c))) (ofZ c) &&
    match toInteger (ofZ r), toInteger (ofZ c) with
    | Some r', Some c' => (r' =? r) && (c' =? c)
    | _, _ => false
    end) = true.
Proof. vm_compute. reflexivity. Qed.

Lemma grid_keys r c :
  0 <= r < ROW_COUNT -> 0 <= c < COLUMN_COUNT ->
  keyRow (cellKey (ofZ r) (ofZ c)) = ofZ r /\
  keyCol (cellKey (ofZ r) (ofZ c)) = ofZ c /\
  toInteger (ofZ r) = Some r /\ toInteger (ofZ c) = Some c.
Proof.
  intros Hr Hc.
  pose proof (gridAll_spec _ grid_keys_check r c Hr Hc) as H. cbv beta in H.
  apply andb_true_iff in H. destruct H as [H H3].
  apply andb_true_iff in H. destruct H as [H1 H2].
  apply sameNumber_eq in H1. apply sameNumber_eq in H2.
  destruct (toInteger (ofZ r)) as [r1|]; [|discriminate H3].
  destruct (toInteger (ofZ c)) as [c1|]; [|discriminate H3].
  apply andb_true_iff in H3. destruct H3 as [E1 E2].
  apply Z.eqb_eq in E1. apply Z.eqb_eq in E2. subst. auto.
Qed.

Lemma grid_key_inj r c r' c' :
  0 <= r < ROW_COUNT -> 0 <= c < COLUMN_COUNT ->
  0 <= r' < ROW_COUNT -> 0 <= c' < COLUMN_COUNT ->
  cellKey (ofZ r) (ofZ c) = cellKey (ofZ r') (ofZ c') -> r = r' /\ c = c'.
Proof.
  intros Hr Hc Hr' Hc' E.
  destruct (grid_keys r c Hr Hc) as (K1 & K2 & I1 & I2).
  destruct (grid_keys r' c' Hr' Hc') as (K1' & K2' & I1' & I2').
  rewrite E in K1, K2. rewrite K1' in K1. rewrite K2' in K2.
  rewrite <- K1 in I1. rewrite <- K2 in I2. split; congruence.
Qed.

(** X6: the key of a cell of the grid gives its row and column back.
    What [exportToCSV] reads off the key that [updateCell] wrote for row
    [r] and column [c] of the grid is [r] and [c]; so two cells of the
    grid never share a key. *)
Theorem grid_key_round_trip (r c : Z) :
  0 <= r < ROW_COUNT -> 0 <= c < COLUMN_COUNT ->
  keyRow (cellKey (ofZ r) (ofZ c)) = ofZ r /\
  keyCol (cellKey (ofZ r) (ofZ c)) = ofZ c /\
  (forall r' c', 0 <= r' < ROW_COUNT -> 0 <= c' < COLUMN_COUNT ->
     cellKey (ofZ r) (ofZ c) = cellKey (ofZ r') (ofZ c') -> r = r' /\ c = c').
Proof.
  intros Hr Hc.
  destruct (grid_keys r c Hr Hc) as (K1 & K2 & _).
  split; [exact K1|]. split; [exact K2|].
  intros r' c' Hr' Hc'. apply grid_key_inj; assumption.
Qed.

Lemma grid_key_round_trip_witness :
  0 <= 7 < ROW_COUNT /\ 0 <= 3 < COLUMN_COUNT /\
  keyRow (cellKey (ofZ 7) (ofZ 3)) = ofZ 7 /\ keyCol (cellKey (ofZ 7) (ofZ 3)) = ofZ 3.
Proof.
  assert (Hr : 0 <= 7 < ROW_COUNT) by (unfold ROW_COUNT; lia).
  assert (Hc : 0 <= 3 < COLUMN_COUNT) by (unfold COLUMN_COUNT; lia).
  destruct (grid_key_round_trip 7 3 Hr Hc) as (H1 & H2 & _).
  split; [exact Hr|]. split; [exact Hc|]. split; [exact H1 | exact H2].
Defined.

Lemma replaceFrom_skip_all matchAt s : replaceFrom matchAt (len s) s = Some EmptyString.
Proof. induction s as [|c s IH]; [reflexivity | exact IH]. Qed.

Lemma replaceFrom_whole matchAt c s text :
  matchAt (String c s) = Some (Some text, len (String c s)) ->
  replaceAll matchAt (String c s) = Some text.
Proof.
  intros H. unfold replaceAll. cbn [replaceFrom]. rewrite H.
  rewrite len_cons. cbn [Nat.pred]. rewrite replaceFrom_skip_all, app_empty_r. reflexivity.
Qed.

(** X7: what [updateCell] writes, [getCellValue] reads.  The cell that
    was written holds the value, for any row and column; every other cell
    of the grid holds what it held before. *)
Theorem update_then_read (now : Z) (st : App.State) (row col : number) (value : string) :
  App.cellValue (App.updateCell now row col value st) row col = value /\
  (forall r c r' c',
      0 <= r < ROW_COUNT -> 0 <= c < COLUMN_COUNT ->
      0 <= r' < ROW_COUNT -> 0 <= c' < COLUMN_COUNT ->
      row = ofZ r -> col = ofZ c -> (r', c') <> (r, c) ->
      App.cellValue (App.updateCell now row col value st) (ofZ r') (ofZ c')
      = App.cellValue st (ofZ r') (ofZ c')).
Proof.
  split.
  - unfold App.cellValue, App.updateCell, getCellValue. cbn [App.setData App.spreadsheetData].
    rewrite lookup_insert_eq. destruct value; reflexivity.
  - intros r c r' c' Hr Hc Hr' Hc' -> -> Hne.
    unfold App.cellValue, App.updateCell, getCellValue. cbn [App.setData App.spreadsheetData].
    rewrite lookup_insert_ne; [reflexivity|].
    intros E. destruct (grid_key_inj r c r' c' Hr Hc Hr' Hc' E) as [-> ->].
    apply Hne. reflexivity.
Qed.

Lemma update_then_read_witness :
  App.cellValue (App.updateCell 1 (ofZ 2) (ofZ 3) "x" (App.initial 0)) (ofZ 4) (ofZ 5)
  = App.cellValue (App.initial 0) (ofZ 4) (ofZ 5).
Proof.
  destruct (update_then_read 1 (App.initial 0) (ofZ 2) (ofZ 3) "x") as [_ H].
  apply (H 2 3 4 5); try reflexivity; try (unfold ROW_COUNT, COLUMN_COUNT; lia).
  intros E. discriminate E.
Defined.

Lemma grid_labels_check :
  gridAll (fun r c =>
    match cellRefRegex (getCellLabel (ofZ r) c) with
    | Some (colText, rowText, n) =>
        (n =? len (getCellLabel (ofZ r) c))%nat &&
        String.eqb (cellKey (rowIndex rowText) (columnIndex colText)) (cellKey (ofZ r) (ofZ c)) &&
        negb (isEmpty (getCellLabel (ofZ r) c))
    | None => false
    end) = true.
Proof. vm_compute. reflexivity. Qed.

(** X8: the label of a cell of the grid, its column letter followed by
    its row number, is one reference to that very cell: the first
    replacement of [evaluateFormula] turns the label into what it writes
    for the content stored under the key of the cell. *)
Theorem label_refers_to_its_cell (r c : Z) (data : SpreadsheetData) :
  0 <= r < ROW_COUNT -> 0 <= c < COLUMN_COUNT ->
  replaceCellRefs (cellRefReplacer data) (getCellLabel (ofZ r) c)
  = Some (written (orElse (data !! cellKey (ofZ r) (ofZ c)) "0")).
Proof.
  intros Hr Hc.
  pose proof (gridAll_spec _ grid_labels_check r c Hr Hc) as H. cbv beta in H.
  destruct (cellRefRegex (getCellLabel (ofZ r) c)) as [[[colText rowText] n]|] eqn:E;
    [|discriminate H].
  apply andb_true_iff in H. destruct H as [H Hne].
  apply andb_true_iff in H. destruct H as [Hn Hk].
  apply Nat.eqb_eq in Hn. apply String.eqb_eq in Hk. subst n.
  destruct (getCellLabel (ofZ r) c) as [|ch rest] eqn:L; [discriminate Hne|].
  unfold replaceCellRefs.
  rewrite (replaceFrom_whole _ ch rest (cellRefReplacer data colText rowText)).
  - f_equal. exact (cellRefReplacer_lookup data colText rowText _ _ Hk eq_refl).
  - rewrite E. reflexivity.
Qed.

Lemma label_refers_to_its_cell_witness :
  0 <= 2 < ROW_COUNT /\ 0 <= 1 < COLUMN_COUNT /\
  replaceCellRefs (cellRefReplacer (sheet [("2-1", "6")])) (getCellLabel (ofZ 2) 1)
  = Some (written (orElse (sheet [("2-1", "6")] !! cellKey (ofZ 2) (ofZ 1)) "0")).
Proof.
  assert (Hr : 0 <= 2 < ROW_COUNT) by (unfold ROW_COUNT; lia).
  assert (Hc : 0 <= 1 < COLUMN_COUNT) by (unfold COLUMN_COUNT; lia).
  split; [exact Hr|]. split; [exact Hc|].
  exact (label_refers_to_its_cell 2 1 (sheet [("2-1", "6")]) Hr Hc).
Defined.




(** ** CSV *)

Lemma sameChar_eq a b : sameChar a b = true -> a = b.
Proof.
  unfold sameChar, code. intros H. apply Z.eqb_eq in H.
  apply N2Z.inj in H.
  rewrite <- (ascii_N_embedding a), <- (ascii_N_embedding b), H. reflexivity.
Qed.

Lemma sameChar_refl a : sameChar a a = true.
Proof. unfold sameChar. apply Z.eqb_refl. Qed.

Lemma snoc_app cur c v : (cur +:+ String c "") +:+ v = cur +:+ String c v.
Proof. rewrite app_assoc_s, app_cons, app_nil_l. reflexivity. Qed.

Lemma parseFrom_plain v : forall tail cur res,
  includes comma v = false -> includes quote v = false ->
  parseFrom (v +:+ tail) cur false res = parseFrom tail (cur +:+ v) false res.
Proof.
  induction v as [|c v IH]; intros tail cur res Hc Hq.
  - rewrite app_nil_l, app_empty_r. reflexivity.
  - cbn [includes] in Hc, Hq.
    apply orb_false_iff in Hc. destruct Hc as [Hc1 Hc2].
    apply orb_false_iff in Hq. destruct Hq as [Hq1 Hq2].
    rewrite app_cons. cbn [parseFrom]. rewrite Hq1, Hc1. cbn [andb].
    rewrite IH by assumption. rewrite snoc_app. reflexivity.
Qed.

Lemma parseFrom_quoted v : forall tail cur res,
  noQuoteAhead tail = true ->
  parseFrom (doubleQuotes v +:+ String quote tail) cur true res
  = parseFrom tail (cur +:+ v) false res.
Proof.
  induction v as [|c v IH]; intros tail cur res Ht.
  - rewrite app_nil_l, app_empty_r. cbn [doubleQuotes parseFrom].
    rewrite sameChar_refl. destruct tail as [|next rest]; [reflexivity|].
    cbn [noQuoteAhead] in Ht. apply negb_true_iff in Ht. rewrite Ht. reflexivity.
  - cbn [doubleQuotes]. destruct (sameChar c quote) eqn:E.
    + apply sameChar_eq in E. subst c.
      rewrite !app_cons. cbn [parseFrom]. rewrite sameChar_refl. cbn [andb].
      rewrite IH by exact Ht. rewrite snoc_app. reflexivity.
    + rewrite app_cons. cbn [parseFrom]. rewrite E. cbn [negb andb].
      rewrite andb_false_r. rewrite IH by exact Ht. rewrite snoc_app. reflexivity.
Qed.

Lemma parseFrom_open rest cur res :
  parseFrom (String quote rest) cur false res = parseFrom rest cur true res.
Proof.
  cbn [parseFrom]. rewrite sameChar_refl. destruct rest; reflexivity.
Qed.

Lemma parseFrom_field v tail cur res :
  noQuoteAhead tail = true ->
  parseFrom (escapedValue v +:+ tail) cur false res = parseFrom tail (cur +:+ v) false res.
Proof.
  intros Ht. unfold escapedValue.
  destruct (includes comma v || includes quote v || includes newline v) eqn:E.
  - rewrite app_cons, app_assoc_s, app_cons, app_nil_l.
    rewrite parseFrom_open. apply parseFrom_quoted, Ht.
  - apply orb_false_iff in E. destruct E as [E _].
    apply orb_false_iff in E. destruct E as [Ec Eq].
    apply parseFrom_plain; assumption.
Qed.

Lemma parseFrom_fields vs : forall v res,
  parseFrom (join "," (map escapedValue (v :: vs))) "" false res = res ++ v :: vs.
Proof.
  induction vs as [|w vs IH]; intros v res.
  - cbn [map join]. rewrite <- (app_empty_r (escapedValue v)).
    rewrite parseFrom_field by reflexivity. rewrite app_nil_l. reflexivity.
  - change (join "," (map escapedValue (v :: w :: vs)))
      with (escapedValue v +:+ String comma (join "," (map escapedValue (w :: vs)))).
    rewrite parseFrom_field by reflexivity. rewrite app_nil_l.
    cbn [parseFrom].
    replace (sameChar comma quote) with false by reflexivity.
    rewrite sameChar_refl. cbn [andb negb].
    rewrite IH. rewrite <- app_assoc. reflexivity.
Qed.

(** X10: [parseCSVLine] reads back what [exportToCSV] writes in a line.
    Whatever the values hold, commas, quotes and line breaks included, the
    line made of the escaped values joined by commas parses to the values
    themselves. *)
Theorem parseCSVLine_reads_escaped (values : list string) :
  values <> [] ->
  parseCSVLine (join "," (map escapedValue values)) = values.
Proof.
  intros H. destruct values as [|v vs]; [contradiction|].
  unfold parseCSVLine. rewrite parseFrom_fields. reflexivity.
Qed.

Lemma parseCSVLine_reads_escaped_witness :
  parseCSVLine (join "," (map escapedValue ["a,b"; ""; String quote "c"]))
  = ["a,b"; ""; String quote "c"].
Proof.
  apply parseCSVLine_reads_escaped. discriminate.
Defined.

Lemma parseFrom_split line : forall cur res,
  includes quote line = false ->
  parseFrom line cur false res = res ++ splitFrom comma cur line.
Proof.
  induction line as [|c line IH]; intros cur res Hq; [reflexivity|].
  cbn [includes] in Hq. apply orb_false_iff in Hq. destruct Hq as [Hq1 Hq2].
  cbn [parseFrom splitFrom]. rewrite Hq1.
  destruct (sameChar c comma); cbn [andb negb].
  - rewrite IH by exact Hq2. rewrite <- app_assoc. reflexivity.
  - apply IH, Hq2.
Qed.

(** X11: on a line without a quote [parseCSVLine] is the split at the
    commas; in particular the empty line has one field, the empty one, and
    the number of fields is the number of commas plus one. *)
Theorem parseCSVLine_without_quotes (line : string) :
  includes quote line = false ->
  parseCSVLine line = split comma line.
Proof.
  intros H. unfold parseCSVLine, split. rewrite parseFrom_split by exact H. reflexivity.
Qed.

Lemma parseCSVLine_without_quotes_witness :
  parseCSVLine "1,,x y" = split comma "1,,x y".
Proof.
  apply parseCSVLine_without_quotes. reflexivity.
Defined.

(** ** Import *)

Lemma storeRow_snoc i vs v d :
  storeRow i (vs ++ [v]) d
  = <[cellKey (ofZ i) (ofZ (Z.of_nat (length vs))):=v]> (storeRow i vs d).
Proof.
  unfold storeRow. rewrite imap_app, foldl_app. cbn [imap foldl fst snd].
  rewrite Nat.add_0_r. reflexivity.
Qed.

Lemma storeRow_miss i vs d k :
  (forall j, (j < length vs)%nat -> cellKey (ofZ i) (ofZ (Z.of_nat j)) <> k) ->
  storeRow i vs d !! k = d !! k.
Proof.
  induction vs as [|v vs IH] using rev_ind; intros H; [reflexivity|].
  rewrite storeRow_snoc. rewrite length_app in H. cbn [length] in H.
  rewrite lookup_insert_ne by (apply H; lia).
  apply IH. intros j Hj. apply H. lia.
Qed.

Lemma storeRow_hit i vs d j v :
  (forall j', (j' < length vs)%nat ->
     cellKey (ofZ i) (ofZ (Z.of_nat j')) = cellKey (ofZ i) (ofZ (Z.of_nat j)) -> j' = j) ->
  vs !! j = Some v ->
  storeRow i vs d !! cellKey (ofZ i) (ofZ (Z.of_nat j)) = Some v.
Proof.
  induction vs as [|x vs IH] using rev_ind; intros Inj Hv; [discriminate Hv|].
  rewrite storeRow_snoc. rewrite length_app in Inj. cbn [length] in Inj.
  destruct (decide (j = length vs)) as [->|Hne].
  - rewrite lookup_app_r, Nat.sub_diag in Hv by lia. cbn in Hv.
    rewrite lookup_insert_eq. exact Hv.
  - assert (Hlt : (j < length vs)%nat).
    { apply lookup_lt_Some in Hv. rewrite length_app in Hv. cbn [length] in Hv. lia. }
    rewrite lookup_app_l in Hv by exact Hlt.
    rewrite lookup_insert_ne.
    + apply IH; [|exact Hv]. intros j' Hj'. apply Inj. lia.
    + intros E. apply Hne. symmetry. apply Inj; [lia | exact E].
Qed.

Lemma storeLines_snoc ls l d :
  storeLines (ls ++ [l]) d = storeRow (Z.of_nat (length ls)) (parseCSVLine l) (storeLines ls d).
Proof.
  unfold storeLines. rewrite imap_app, foldl_app. cbn [imap foldl fst snd].
  rewrite Nat.add_0_r. reflexivity.
Qed.

Lemma storeLines_miss ls d k :
  (forall i l j, ls !! i = Some l -> (j < length (parseCSVLine l))%nat ->
     cellKey (ofZ (Z.of_nat i)) (ofZ (Z.of_nat j)) <> k) ->
  storeLines ls d !! k = d !! k.
Proof.
  induction ls as [|l ls IH] using rev_ind; intros H; [reflexivity|].
  rewrite storeLines_snoc. rewrite storeRow_miss.
  - apply IH. intros i l' j Hl Hj. apply (H i l' j); [|exact Hj].
    rewrite lookup_app_l by (apply lookup_lt_Some in Hl; exact Hl). exact Hl.
  - intros j Hj. apply (H (length ls) l j); [|exact Hj].
    rewrite lookup_app_r, Nat.sub_diag by lia. reflexivity.
Qed.

Lemma grid_key_inj_nat i j i' j' :
  (i < 50)%nat -> (j < 10)%nat -> (i' < 50)%nat -> (j' < 10)%nat ->
  cellKey (ofZ (Z.of_nat i)) (ofZ (Z.of_nat j)) = cellKey (ofZ (Z.of_nat i')) (ofZ (Z.of_nat j')) ->
  i = i' /\ j = j'.
Proof.
  intros Hi Hj Hi' Hj' E.
  destruct (grid_key_inj (Z.of_nat i) (Z.of_nat j) (Z.of_nat i') (Z.of_nat j')) as [E1 E2];
    unfold ROW_COUNT, COLUMN_COUNT; try lia; try exact E.
Qed.

Lemma storeLines_hit ls : forall d i j l v,
  (length ls <= 50)%nat ->
  (forall l', l' ∈ ls -> (length (parseCSVLine l') <= 10)%nat) ->
  ls !! i = Some l -> parseCSVLine l !! j = Some v ->
  storeLines ls d !! cellKey (ofZ (Z.of_nat i)) (ofZ (Z.of_nat j)) = Some v.
Proof.
  induction ls as [|x ls IH] using rev_ind; intros d i j l v Hlen Hw Hl Hv; [discriminate Hl|].
  rewrite length_app in Hlen. cbn [length] in Hlen.
  assert (Wl : (length (parseCSVLine l) <= 10)%nat).
  { apply Hw. apply list_elem_of_lookup. exists i. exact Hl. }
  assert (Wx : (length (parseCSVLine x) <= 10)%nat).
  { apply Hw. apply elem_of_app. right. apply list_elem_of_singleton. reflexivity. }
  assert (Hj : (j < 10)%nat) by (apply lookup_lt_Some in Hv; lia).
  rewrite storeLines_snoc.
  destruct (decide (i = length ls)) as [->|Hne].
  - rewrite lookup_app_r, Nat.sub_diag in Hl by lia. cbn in Hl.
    injection Hl as ->.
    apply storeRow_hit; [|exact Hv].
    intros j' Hj' E.
    destruct (grid_key_inj_nat (length ls) j' (length ls) j) as [_ E2]; try lia. exact E.
  - assert (Hlt : (i < length ls)%nat).
    { apply lookup_lt_Some in Hl. rewrite length_app in Hl. cbn [length] in Hl. lia. }
    rewrite lookup_app_l in Hl by exact Hlt.
    rewrite storeRow_miss.
    + apply (IH d i j l v); [lia | | exact Hl | exact Hv].
      intros l' Hl'. apply Hw. apply elem_of_app. left. exact Hl'.
    + intros j' Hj' E.
      destruct (grid_key_inj_nat (length ls) j' i j) as [E1 _]; try lia. exact E.
Qed.

Lemma storeLines_grid ls i j :
  (length ls <= 50)%nat ->
  (forall l', l' ∈ ls -> (length (parseCSVLine l') <= 10)%nat) ->
  (i < 50)%nat -> (j < 10)%nat ->
  storeLines ls ∅ !! cellKey (ofZ (Z.of_nat i)) (ofZ (Z.of_nat j))
  = ls !! i ≫= fun l => parseCSVLine l !! j.
Proof.
  intros Hlen Hw Hi Hj.
  destruct (ls !! i ≫= fun l => parseCSVLine l !! j) as [v|] eqn:E.
  - destruct (ls !! i) as [l|] eqn:El; [|discriminate E]. cbn in E.
    apply (storeLines_hit ls ∅ i j l v Hlen Hw El E).
  - rewrite storeLines_miss; [apply lookup_empty|].
    intros i' l' j' Hl' Hj' K.
    assert (Wl : (length (parseCSVLine l') <= 10)%nat).
    { apply Hw. apply list_elem_of_lookup. exists i'. exact Hl'. }
    assert (Hi' : (i' < 50)%nat) by (apply lookup_lt_Some in Hl'; lia).
    destruct (grid_key_inj_nat i' j' i j) as [E1 E2]; try lia; [exact K|]. subst i' j'.
    rewrite Hl' in E. cbn in E.
    apply lookup_lt_is_Some_2 in Hj'. rewrite E in Hj'. destruct Hj' as [? Hj']. discriminate Hj'.
Qed.

(** X12: what [importFromCSV] stores.  When the lines with data are at
    most 50 and none has more than 10 fields, the cell in row [i] and
    column [j] of the grid holds field [j] of line [i] as [parseCSVLine]
    gives it, and nothing where the text has no such line or field. *)
Theorem import_places_fields (text : string) (newData : SpreadsheetData) (i j : nat) :
  importedData text = Some newData ->
  (length (dataLines text) <= 50)%nat ->
  (forall line, line ∈ dataLines text -> (length (parseCSVLine line) <= 10)%nat) ->
  (i < 50)%nat -> (j < 10)%nat ->
  newData !! cellKey (ofZ (Z.of_nat i)) (ofZ (Z.of_nat j))
  = dataLines text !! i ≫= fun line => parseCSVLine line !! j.
Proof.
  intros H Hlen Hw Hi Hj. unfold importedData in H.
  destruct (importLines text); [discriminate H|]. injection H as <-.
  apply storeLines_grid; assumption.
Qed.

Lemma import_places_fields_witness :
  exists newData,
    importedData ("A,B" +:+ String newline ("1,2" +:+ String newline "3,x")) = Some newData /\
    newData !! cellKey (ofZ 1) (ofZ 1) = Some "x".
Proof.
  destruct (importedData ("A,B" +:+ String newline ("1,2" +:+ String newline "3,x")))
    as [newData|] eqn:E; [|vm_compute in E; discriminate E].
  exists newData. split; [reflexivity|].
  change 1 with (Z.of_nat 1).
  rewrite (import_places_fields _ newData 1 1 E).
  - vm_compute. reflexivity.
  - vm_compute. lia.
  - intros line Hl.
    assert (L : dataLines ("A,B" +:+ String newline ("1,2" +:+ String newline "3,x"))
                = ["1,2"; "3,x"]) by (vm_compute; reflexivity).
    rewrite L in Hl.
    apply elem_of_cons in Hl. destruct Hl as [->|Hl]; [vm_compute; lia|].
    apply elem_of_cons in Hl. destruct Hl as [->|Hl]; [vm_compute; lia|].
    apply elem_of_nil in Hl. destruct Hl.
  - lia.
  - lia.
Defined.

Lemma dropWhile_blank s : allS isSpace s = true -> dropWhile isSpace s = "".
Proof.
  induction s as [|c s IH]; [reflexivity|]. cbn [allS dropWhile].
  intros H. apply andb_true_iff in H. destruct H as [H1 H2]. rewrite H1. apply IH, H2.
Qed.

Lemma splitFrom_blank s : forall cur,
  allS isSpace cur = true -> allS isSpace s = true ->
  Forall (fun l => allS isSpace l = true) (splitFrom newline cur s).
Proof.
  induction s as [|c s IH]; intros cur Hc Hs.
  - constructor; [exact Hc | constructor].
  - cbn [allS] in Hs. apply andb_true_iff in Hs. destruct Hs as [H1 H2].
    cbn [splitFrom]. destruct (sameChar c newline).
    + constructor; [exact Hc|]. apply IH; [reflexivity | exact H2].
    + apply IH; [|exact H2]. rewrite allS_app, Hc. cbn [allS]. rewrite H1. reflexivity.
Qed.

Lemma importLines_blank text : allS isSpace text = true -> importLines text = [].
Proof.
  intros H. unfold importLines, split.
  pose proof (splitFrom_blank text "" eq_refl H) as F.
  induction F as [|l ls Hl _ IH]; [reflexivity|].
  cbn [List.filter]. unfold trim. rewrite (dropWhile_blank l Hl). cbn. exact IH.
Qed.

(** X13: a file of white space imports nothing.  [importFromCSV] on a
    text that holds only spaces, tabs and line breaks, the empty text
    among them, leaves the sheet, the history and its index as they
    are. *)
Theorem blank_file_changes_nothing (now : Z) (text : string) (st : App.State) :
  allS isSpace text = true ->
  importFromCSV now text st = st.
Proof.
  intros H. unfold importFromCSV, importedData.
  rewrite (importLines_blank text H). reflexivity.
Qed.

Lemma blank_file_changes_nothing_witness :
  importFromCSV 1 (String newline "  ") (App.initial 0) = App.initial 0.
Proof.
  apply blank_file_changes_nothing. reflexivity.
Defined.

(** ** Export and import *)

Lemma smallAll_spec P : smallAll P = true -> forall n, 0 <= n < ROW_COUNT -> P n = true.
Proof.
  unfold smallAll. intros H n Hn. rewrite forallb_forall in H.
  apply H. apply list_elem_of_In, elem_of_seqZ. lia.
Qed.

Lemma small_check :
  smallAll (fun h =>
    smallAll (fun n => Bool.eqb (lt (ofZ h) (ofZ n)) (h <? n)) &&
    negb (isNaN (ofZ h)) && negb (isNegZero (ofZ h)) &&
    lt (S754_infinity true) (ofZ h) && leb zero (ofZ h)) = true.
Proof. vm_compute. reflexivity. Qed.

Lemma small_facts h :
  0 <= h < ROW_COUNT ->
  (forall n, 0 <= n < ROW_COUNT -> lt (ofZ h) (ofZ n) = (h <? n)) /\
  isNaN (ofZ h) = false /\ isNegZero (ofZ h) = false /\
  lt (S754_infinity true) (ofZ h) = true /\ leb zero (ofZ h) = true /\
  toInteger (ofZ h) = Some h.
Proof.
  intros Hh. pose proof (smallAll_spec _ small_check h Hh) as H. cbv beta in H.
  apply andb_true_iff in H. destruct H as [H H5].
  apply andb_true_iff in H. destruct H as [H H4].
  apply andb_true_iff in H. destruct H as [H H3].
  apply andb_true_iff in H. destruct H as [H1 H2].
  apply negb_true_iff in H2. apply negb_true_iff in H3.
  split; [|split; [exact H2|split; [exact H3|split; [exact H4|split; [exact H5|]]]]].
  - intros n Hn. pose proof (smallAll_spec _ H1 n Hn) as E. cbv beta in E.
    apply Bool.eqb_prop in E. exact E.
  - apply (grid_keys h 0 Hh). unfold COLUMN_COUNT. lia.
Qed.

Lemma ofZ_small_inj n m :
  0 <= n < ROW_COUNT -> 0 <= m < ROW_COUNT -> ofZ n = ofZ m -> n = m.
Proof.
  intros Hn Hm E.
  destruct (small_facts n Hn) as (_ & _ & _ & _ & _ & In).
  destruct (small_facts m Hm) as (_ & _ & _ & _ & _ & Im).
  rewrite E in In. congruence.
Qed.

Lemma mathMax_go_small xs : forall h,
  0 <= h < ROW_COUNT ->
  Forall (fun x => exists n, 0 <= n < ROW_COUNT /\ x = ofZ n) xs ->
  exists m, mathMax_go (ofZ h) xs = ofZ m /\ 0 <= m < ROW_COUNT /\ h <= m /\
            (m = h \/ ofZ m ∈ xs) /\
            (forall n, 0 <= n < ROW_COUNT -> ofZ n ∈ xs -> n <= m).
Proof.
  induction xs as [|x xs IH]; intros h Hh F.
  - exists h. split; [reflexivity|]. split; [exact Hh|]. split; [lia|]. split; [left; reflexivity|].
    intros n _ Hn. apply elem_of_nil in Hn. destruct Hn.
  - apply Forall_cons in F. destruct F as [(n & Hn & ->) F].
    destruct (small_facts h Hh) as (L & _ & Z1 & _).
    destruct (small_facts n Hn) as (_ & N1 & _).
    cbn [mathMax_go]. rewrite N1, Z1, andb_false_r, (L n Hn).
    destruct (h <? n) eqn:E.
    + apply Z.ltb_lt in E.
      destruct (IH n Hn F) as (m & M1 & M2 & M3 & M4 & M5).
      exists m. split; [exact M1|]. split; [exact M2|]. split; [lia|]. split.
      * right. destruct M4 as [->|M4]; [apply list_elem_of_here | apply list_elem_of_further, M4].
      * intros n' Hn' Hin. apply elem_of_cons in Hin. destruct Hin as [Hin|Hin].
        -- apply ofZ_small_inj in Hin; [lia | exact Hn' | exact Hn].
        -- apply M5; assumption.
    + apply Z.ltb_ge in E.
      destruct (IH h Hh F) as (m & M1 & M2 & M3 & M4 & M5).
      exists m. split; [exact M1|]. split; [exact M2|]. split; [lia|]. split.
      * destruct M4 as [->|M4]; [left; reflexivity | right; apply list_elem_of_further, M4].
      * intros n' Hn' Hin. apply elem_of_cons in Hin. destruct Hin as [Hin|Hin].
        -- apply ofZ_small_inj in Hin; [lia | exact Hn' | exact Hn].
        -- apply M5; assumption.
Qed.

Lemma mathMax_small xs :
  Forall (fun x => exists n, 0 <= n < ROW_COUNT /\ x = ofZ n) (xs ++ [zero]) ->
  exists m, mathMax (xs ++ [zero]) = ofZ m /\ 0 <= m < ROW_COUNT /\
            ofZ m ∈ xs ++ [zero] /\
            (forall n, 0 <= n < ROW_COUNT -> ofZ n ∈ xs ++ [zero] -> n <= m).
Proof.
  intros F. destruct (xs ++ [zero]) as [|x l] eqn:E.
  - destruct xs; discriminate E.
  - pose proof F as F'. apply Forall_cons in F'. destruct F' as [(n & Hn & ->) F'].
    destruct (small_facts n Hn) as (_ & N1 & _ & N2 & _).
    unfold mathMax. cbn [mathMax_go]. rewrite N1, N2.
    replace (isPosZero (ofZ n) && isNegZero (S754_infinity true)) with false
      by (rewrite andb_false_r; reflexivity).
    destruct (mathMax_go_small l n Hn F') as (m & M1 & M2 & M3 & M4 & M5).
    exists m. split; [exact M1|]. split; [exact M2|]. split.
    + destruct M4 as [->|M4]; [apply list_elem_of_here | apply list_elem_of_further, M4].
    + intros n' Hn' Hin. apply elem_of_cons in Hin. destruct Hin as [Hin|Hin].
      * apply ofZ_small_inj in Hin; [lia | exact Hn' | exact Hn].
      * apply M5; assumption.
Qed.

Lemma key_in_list (f : string -> number) (data : SpreadsheetData) key value :
  data !! key = Some value ->
  f key ∈ map (fun kv => f (fst kv)) (map_to_list data) ++ [zero].
Proof.
  intros H. apply elem_of_app. left. apply list_elem_of_In, in_map_iff.
  exists (key, value). split; [reflexivity|].
  apply list_elem_of_In, elem_of_map_to_list. exact H.
Qed.

Lemma keys_small (f : string -> number) (data : SpreadsheetData) (bound : Z) :
  0 < bound <= ROW_COUNT ->
  (forall key value, data !! key = Some value -> exists n, 0 <= n < bound /\ f key = ofZ n) ->
  Forall (fun x => exists n, 0 <= n < bound /\ x = ofZ n)
    (map (fun kv => f (fst kv)) (map_to_list data) ++ [zero]).
Proof.
  intros Hb H. apply Forall_app. split.
  - apply Forall_forall. intros x Hx.
    apply list_elem_of_In, in_map_iff in Hx. destruct Hx as ([key value] & <- & Hin).
    apply list_elem_of_In, elem_of_map_to_list in Hin. apply (H key value Hin).
  - constructor; [|constructor]. exists 0. split; [lia | reflexivity].
Qed.

Lemma maximum_small (f : string -> number) (data : SpreadsheetData) (bound : Z) :
  0 < bound <= ROW_COUNT ->
  (forall key value, data !! key = Some value -> exists n, 0 <= n < bound /\ f key = ofZ n) ->
  exists m, mathMax (map (fun kv => f (fst kv)) (map_to_list data) ++ [zero]) = ofZ m /\
            0 <= m < bound /\
            (forall key value n, data !! key = Some value -> 0 <= n < bound ->
               f key = ofZ n -> n <= m).
Proof.
  intros Hb H. pose proof (keys_small f data bound Hb H) as F.
  assert (F' : Forall (fun x => exists n, 0 <= n < ROW_COUNT /\ x = ofZ n)
                 (map (fun kv => f (fst kv)) (map_to_list data) ++ [zero])).
  { eapply Forall_impl; [exact F|]. intros x (n & Hn & ->). exists n. split; [lia | reflexivity]. }
  destruct (mathMax_small _ F') as (m & M1 & M2 & M3 & M4).
  exists m. split; [exact M1|]. split.
  - rewrite Forall_forall in F. destruct (F _ M3) as (n & Hn & E).
    apply ofZ_small_inj in E; [lia | exact M2 | lia].
  - intros key value n Hk Hn E. apply M4; [lia|].
    rewrite <- E. apply (key_in_list f data key value Hk).
Qed.

Lemma maxima_onGrid data :
  onGrid data ->
  exists R C, 0 <= R < ROW_COUNT /\ 0 <= C < COLUMN_COUNT /\
    maxRow data = ofZ R /\ maxCol data = ofZ C /\
    (forall r c value, 0 <= r < ROW_COUNT -> 0 <= c < COLUMN_COUNT ->
       data !! cellKey (ofZ r) (ofZ c) = Some value -> r <= R /\ c <= C).
Proof.
  intros G.
  destruct (maximum_small keyRow data ROW_COUNT) as (R & R1 & R2 & R3).
  { unfold ROW_COUNT. lia. }
  { intros key value H. destruct (G key value H) as (r & c & Hr & Hc & ->).
    exists r. split; [exact Hr|]. apply (grid_keys r c Hr Hc). }
  destruct (maximum_small keyCol data COLUMN_COUNT) as (C & C1 & C2 & C3).
  { unfold ROW_COUNT, COLUMN_COUNT. lia. }
  { intros key value H. destruct (G key value H) as (r & c & Hr & Hc & ->).
    exists c. split; [exact Hc|]. apply (grid_keys r c Hr Hc). }
  exists R, C. split; [exact R2|]. split; [exact C2|].
  split; [exact R1|]. split; [exact C1|].
  intros r c value Hr Hc H. split.
  - apply (R3 _ value r H Hr). apply (grid_keys r c Hr Hc).
  - apply (C3 _ value c H Hc). apply (grid_keys r c Hr Hc).
Qed.

Lemma counter_small n :
  0 <= n < ROW_COUNT -> counter zero (ofZ n) = Some (seqZ 0 (n + 1)).
Proof.
  intros Hn. destruct (small_facts n Hn) as (_ & _ & _ & _ & L & I).
  unfold counter. rewrite L, I. cbn [toInteger zero].
  replace ((- 2 ^ 53 <? 0) && (n <? 2 ^ 53)) with true.
  - rewrite Z.sub_0_r. reflexivity.
  - symmetry. apply andb_true_iff. split; [reflexivity|].
    apply Z.ltb_lt. change (2 ^ 53) with 9007199254740992. unfold ROW_COUNT in Hn. lia.
Qed.

Lemma header_check :
  forallb (fun C =>
    isHeader (headerLine (seqZ 0 (C + 1))) &&
    negb (includes newline (headerLine (seqZ 0 (C + 1)))) &&
    forallb (fun col => col <=? 190) (seqZ 0 (C + 1))) (seqZ 0 COLUMN_COUNT) = true.
Proof. vm_compute. reflexivity. Qed.

Lemma header_facts C :
  0 <= C < COLUMN_COUNT ->
  isHeader (headerLine (seqZ 0 (C + 1))) = true /\
  includes newline (headerLine (seqZ 0 (C + 1))) = false /\
  forallb (fun col => col <=? 190) (seqZ 0 (C + 1)) = true.
Proof.
  intros HC. pose proof header_check as H. rewrite forallb_forall in H.
  specialize (H C). cbv beta in H.
  assert (I : In C (seqZ 0 COLUMN_COUNT)) by (apply list_elem_of_In, elem_of_seqZ; lia).
  specialize (H I).
  apply andb_true_iff in H. destruct H as [H H3].
  apply andb_true_iff in H. destruct H as [H1 H2].
  apply negb_true_iff in H2. auto.
Qed.

Lemma csvContent_onGrid data :
  onGrid data ->
  exists R C, 0 <= R < ROW_COUNT /\ 0 <= C < COLUMN_COUNT /\
    csvContent data
    = Some (headerLine (seqZ 0 (C + 1))
            :: map (fun row => exportRow data row (seqZ 0 (C + 1))) (seqZ 0 (R + 1))) /\
    (forall r c value, 0 <= r < ROW_COUNT -> 0 <= c < COLUMN_COUNT ->
       data !! cellKey (ofZ r) (ofZ c) = Some value -> r <= R /\ c <= C).
Proof.
  intros G. destruct (maxima_onGrid data G) as (R & C & HR & HC & ER & EC & M).
  exists R, C. split; [exact HR|]. split; [exact HC|]. split; [|exact M].
  unfold csvContent. rewrite ER, EC.
  rewrite (counter_small R HR).
  rewrite (counter_small C) by (unfold ROW_COUNT, COLUMN_COUNT in *; lia).
  destruct (header_facts C HC) as (_ & _ & ->). reflexivity.
Qed.

Lemma includes_app c a b : includes c (a +:+ b) = includes c a || includes c b.
Proof.
  induction a as [|x a IH]; [reflexivity|].
  rewrite app_cons. cbn [includes]. rewrite IH, orb_assoc. reflexivity.
Qed.

Lemma includes_doubleQuotes v :
  includes newline (doubleQuotes v) = includes newline v.
Proof.
  induction v as [|c v IH]; [reflexivity|].
  cbn [doubleQuotes]. destruct (sameChar c quote) eqn:E.
  - apply sameChar_eq in E. subst c. cbn [includes]. rewrite IH. reflexivity.
  - cbn [includes]. rewrite IH. reflexivity.
Qed.

Lemma includes_escaped v :
  includes newline v = false -> includes newline (escapedValue v) = false.
Proof.
  intros H. unfold escapedValue.
  destruct (includes comma v || includes quote v || includes newline v); [|exact H].
  cbn [includes]. rewrite includes_app, includes_doubleQuotes, H. reflexivity.
Qed.

Lemma includes_join vs :
  Forall (fun v => includes newline v = false) vs ->
  includes newline (join "," vs) = false.
Proof.
  induction 1 as [|v vs Hv F IH]; [reflexivity|].
  destruct vs as [|w vs]; [exact Hv|].
  change (join "," (v :: w :: vs)) with (v +:+ String comma (join "," (w :: vs))).
  rewrite includes_app, Hv. cbn [includes orb]. exact IH.
Qed.

Lemma orElse_no_newline (data : SpreadsheetData) key :
  (forall key value, data !! key = Some value -> includes newline value = false) ->
  includes newline (orElse (data !! key) "") = false.
Proof.
  intros H. destruct (data !! key) as [v|] eqn:E; [|reflexivity].
  specialize (H key v E). destruct v; [reflexivity | exact H].
Qed.

Lemma exportRow_no_newline (data : SpreadsheetData) row cols :
  (forall key value, data !! key = Some value -> includes newline value = false) ->
  includes newline (exportRow data row cols) = false.
Proof.
  intros H. unfold exportRow. apply includes_join.
  apply Forall_forall. intros x Hx. apply list_elem_of_In, in_map_iff in Hx.
  destruct Hx as (col & <- & _). apply includes_escaped, orElse_no_newline, H.
Qed.

Lemma splitFrom_line l : forall cur rest,
  includes newline l = false ->
  splitFrom newline cur (l +:+ rest) = splitFrom newline (cur +:+ l) rest.
Proof.
  induction l as [|c l IH]; intros cur rest H.
  - rewrite app_nil_l, app_empty_r. reflexivity.
  - cbn [includes] in H. apply orb_false_iff in H. destruct H as [H1 H2].
    rewrite app_cons. cbn [splitFrom]. rewrite H1.
    rewrite IH by exact H2. rewrite snoc_app. reflexivity.
Qed.

Lemma split_join ls : forall l cur,
  Forall (fun l => includes newline l = false) (l :: ls) ->
  splitFrom newline cur (join (String newline "") (l :: ls)) = (cur +:+ l) :: ls.
Proof.
  induction ls as [|l2 ls IH]; intros l cur F.
  - apply Forall_cons in F. destruct F as [Hl _].
    cbn [join]. rewrite <- (app_empty_r l) at 1.
    rewrite splitFrom_line by exact Hl. reflexivity.
  - apply Forall_cons in F. destruct F as [Hl F].
    change (join (String newline "") (l :: l2 :: ls))
      with (l +:+ String newline (join (String newline "") (l2 :: ls))).
    rewrite splitFrom_line by exact Hl. cbn [splitFrom].
    rewrite sameChar_refl. rewrite IH by exact F. rewrite app_nil_l. reflexivity.
Qed.

Lemma filter_all {A} (P : A -> bool) ls :
  Forall (fun l => P l = true) ls -> List.filter P ls = ls.
Proof.
  induction 1 as [|l ls Hl _ IH]; [reflexivity|].
  cbn [List.filter]. rewrite Hl, IH. reflexivity.
Qed.

Lemma import_of_lines header rows :
  isHeader header = true ->
  Forall (fun l => includes newline l = false) (header :: rows) ->
  Forall (fun l => isEmpty (trim l) = false) (header :: rows) ->
  importedData (join (String newline "") (header :: rows)) = Some (storeLines rows ∅).
Proof.
  intros Hh Fn Fb.
  assert (L : importLines (join (String newline "") (header :: rows)) = header :: rows).
  { unfold importLines, split. rewrite split_join by exact Fn. rewrite app_nil_l.
    apply filter_all. eapply Forall_impl; [exact Fb|].
    intros l Hl. cbv beta in Hl. rewrite Hl. reflexivity. }
  unfold importedData, dataLines. rewrite L, Hh. reflexivity.
Qed.

Lemma lookup_map {A B} (f : A -> B) l i : map f l !! i = option_map f (l !! i).
Proof.
  revert i. induction l as [|x l IH]; intros [|i]; try reflexivity. apply IH.
Qed.

Lemma orElse_twice v : orElse (Some (orElse v "")) "" = orElse v "".
Proof. destruct v as [[|c s]|]; reflexivity. Qed.

Lemma parse_exportRow data row C :
  0 <= C ->
  parseCSVLine (exportRow data row (seqZ 0 (C + 1)))
  = map (fun col => orElse (data !! cellKey (ofZ row) (ofZ col)) "") (seqZ 0 (C + 1)).
Proof.
  intros HC. unfold exportRow.
  rewrite <- (map_map (fun col => orElse (data !! cellKey (ofZ row) (ofZ col)) "") escapedValue).
  destruct (map (fun col => orElse (data !! cellKey (ofZ row) (ofZ col)) "") (seqZ 0 (C + 1)))
    as [|v vs] eqn:E.
  - apply (f_equal (@length string)) in E. rewrite length_map, length_seqZ in E.
    cbn [length] in E. lia.
  - unfold parseCSVLine. rewrite parseFrom_fields. reflexivity.
Qed.

(** X14: what [exportToCSV] writes, [importFromCSV] reads.  For a sheet
    whose keys are cells of the grid, whose values hold no line break, and
    whose export has no blank line, the export succeeds, and the import of
    its text shows in every cell of the grid what the sheet showed. *)
Theorem export_then_import (data : SpreadsheetData) :
  onGrid data ->
  (forall key value, data !! key = Some value -> includes newline value = false) ->
  (forall lines line, csvContent data = Some lines -> line ∈ lines ->
     isEmpty (trim line) = false) ->
  exists text newData,
    exportToCSV data = Some text /\ importedData text = Some newData /\
    forall r c, 0 <= r < ROW_COUNT -> 0 <= c < COLUMN_COUNT ->
      getCellValue newData (ofZ r) (ofZ c) = getCellValue data (ofZ r) (ofZ c).
Proof.
  intros G Hn Hb.
  destruct (csvContent_onGrid data G) as (R & C & HR & HC & E & M).
  destruct (header_facts C HC) as (Hh & Hhn & _).
  set (cols := seqZ 0 (C + 1)) in *.
  set (rows := map (fun row => exportRow data row cols) (seqZ 0 (R + 1))) in *.
  assert (Fn : Forall (fun l => includes newline l = false) (headerLine cols :: rows)).
  { constructor; [exact Hhn|]. apply Forall_forall. intros l Hl.
    apply list_elem_of_In, in_map_iff in Hl. destruct Hl as (row & <- & _).
    apply exportRow_no_newline, Hn. }
  assert (Fb : Forall (fun l => isEmpty (trim l) = false) (headerLine cols :: rows)).
  { apply Forall_forall. intros l Hl. apply (Hb _ l E Hl). }
  exists (join (String newline "") (headerLine cols :: rows)), (storeLines rows ∅).
  split; [unfold exportToCSV; rewrite E; reflexivity|].
  split; [apply import_of_lines; assumption|].
  intros r c Hr Hc. unfold getCellValue.
  assert (Lr : length rows = Z.to_nat (R + 1)).
  { unfold rows. rewrite length_map, length_seqZ. reflexivity. }
  assert (W : forall l', l' ∈ rows -> (length (parseCSVLine l') <= 10)%nat).
  { intros l' Hl'. apply list_elem_of_In, in_map_iff in Hl'. destruct Hl' as (row & <- & _).
    unfold cols. rewrite parse_exportRow by lia. rewrite length_map, length_seqZ.
    unfold COLUMN_COUNT in HC. lia. }
  rewrite <- (Z2Nat.id r), <- (Z2Nat.id c) by lia.
  rewrite (storeLines_grid rows (Z.to_nat r) (Z.to_nat c));
    [| unfold ROW_COUNT in HR; lia | exact W
     | unfold ROW_COUNT in Hr; lia | unfold COLUMN_COUNT in Hc; lia].
  rewrite !Z2Nat.id by lia.
  unfold rows. rewrite lookup_map.
  destruct (decide (r <= R)) as [Hle|Hgt].
  - rewrite (lookup_seqZ_lt 0 (R + 1) (Z.to_nat r)) by lia.
    cbn [option_map mbind option_bind]. rewrite Z.add_0_l, Z2Nat.id by lia.
    unfold cols. rewrite parse_exportRow by lia. rewrite lookup_map.
    destruct (decide (c <= C)) as [Hlc|Hgc].
    + rewrite (lookup_seqZ_lt 0 (C + 1) (Z.to_nat c)) by lia.
      cbn [option_map]. rewrite Z.add_0_l, Z2Nat.id by lia. apply orElse_twice.
    + rewrite (lookup_seqZ_ge 0 (C + 1) (Z.to_nat c)) by lia. cbn [option_map].
      destruct (data !! cellKey (ofZ r) (ofZ c)) as [v|] eqn:Ev; [|reflexivity].
      destruct (M r c v Hr Hc Ev). lia.
  - rewrite (lookup_seqZ_ge 0 (R + 1) (Z.to_nat r)) by lia.
    cbn [option_map mbind option_bind].
    destruct (data !! cellKey (ofZ r) (ofZ c)) as [v|] eqn:Ev; [|reflexivity].
    destruct (M r c v Hr Hc Ev). lia.
Qed.

(** ** The keyboard *)

Lemma cells_inGrid render row col :
  0 <= row < ROW_COUNT -> 0 <= col < COLUMN_COUNT ->
  Spreadsheet.cells render row col = Some (App.cellValue render (ofZ row) (ofZ col)).
Proof.
  intros Hr Hc. unfold Spreadsheet.cells.
  replace ((0 <=? row) && (row <? ROW_COUNT) && (0 <=? col) && (col <? COLUMN_COUNT)) with true;
    [reflexivity|].
  symmetry. rewrite !andb_true_iff. repeat split; try apply Z.leb_le; try apply Z.ltb_lt; lia.
Qed.





(** X16: a key that does not commit leaves the sheet alone.  From a cell
    of the grid, every other key leaves the sheet and its history as they
    are; Escape closes the editor and puts the content of the cell back
    in the edit value, and the remaining keys, the arrows with Shift among
    them, change nothing at all. *)
Theorem other_keys_leave_sheet (now : Z) (key : string) (shiftKey : bool)
    (w : Spreadsheet.World) (p : Spreadsheet.CellPosition) :
  Spreadsheet.editingCell (Spreadsheet.view w) = Some p -> Spreadsheet.inGrid p ->
  Spreadsheet.commits key shiftKey = false ->
  exists w', Spreadsheet.handleInputKeyDown now key shiftKey w = Some w' /\
    Spreadsheet.app w' = Spreadsheet.app w /\
    (key = "Escape" ->
       Spreadsheet.editingCell (Spreadsheet.view w') = None /\
       Spreadsheet.editValue (Spreadsheet.view w')
       = App.cellValue (Spreadsheet.app w) (ofZ (Spreadsheet.row p)) (ofZ (Spreadsheet.col p))) /\
    (key <> "Escape" -> w' = w).
Proof.
  intros He [Hr Hc] Hk.
  unfold Spreadsheet.handleInputKeyDown. rewrite He. cbv zeta.
  unfold Spreadsheet.commits in Hk.
  apply orb_false_iff in Hk. destruct Hk as [Hk Ha].
  apply orb_false_iff in Hk. destruct Hk as [K1 K2].
  rewrite K1, K2.
  destruct (String.eqb key "Escape") eqn:K3.
  - apply String.eqb_eq in K3. subst key.
    rewrite (cells_inGrid _ _ _ Hr Hc).
    eexists. split; [reflexivity|]. cbn [Spreadsheet.app Spreadsheet.view Spreadsheet.editingCell Spreadsheet.editValue].
    split; [reflexivity|]. split; [intros _; split; reflexivity|].
    intros N. destruct N. reflexivity.
  - assert (N : key <> "Escape") by (intros ->; discriminate K3).
    assert (R : exists w', Some w = Some w' /\ Spreadsheet.app w' = Spreadsheet.app w /\
               (key = "Escape" ->
                  Spreadsheet.editingCell (Spreadsheet.view w') = None /\
                  Spreadsheet.editValue (Spreadsheet.view w')
                  = App.cellValue (Spreadsheet.app w) (ofZ (Spreadsheet.row p)) (ofZ (Spreadsheet.col p))) /\
               (key <> "Escape" -> w' = w)).
    { exists w. split; [reflexivity|]. split; [reflexivity|].
      split; [intros E; destruct (N E) | reflexivity]. }
    destruct shiftKey.
    + cbn [negb]. rewrite !andb_false_r. exact R.
    + cbn [negb] in *. rewrite !andb_true_r in *.
      apply orb_false_iff in Ha. destruct Ha as [Ha K7].
      apply orb_false_iff in Ha. destruct Ha as [Ha K6].
      apply orb_false_iff in Ha. destruct Ha as [K4 K5].
      rewrite K4, K5, K6, K7. exact R.
Qed.

(** ** The suggested changes *)

Lemma updates_decided (s : Diff.Status) i changes :
  s <> Diff.pending ->
  Diff.updates
    (map (fun change => if String.eqb (Diff.id change) i then Diff.withStatus s change else change)
         changes)
  = Diff.updates (List.filter (fun c => negb (String.eqb (Diff.id c) i)) changes).
Proof.
  intros Hs. unfold Diff.updates. f_equal.
  induction changes as [|c cs IH]; [reflexivity|].
  cbn [map List.filter]. destruct (String.eqb (Diff.id c) i) eqn:E; cbn [negb].
  - replace (Diff.isPending (Diff.withStatus s c)) with false; [exact IH|].
    unfold Diff.isPending, Diff.withStatus. cbn [Diff.status]. destruct s; [contradiction| |]; reflexivity.
  - cbn [List.filter]. destruct (Diff.isPending c); [rewrite IH|]; [reflexivity | exact IH].
Qed.

(** X17: accepting one change writes nothing.  [acceptChange] leaves
    the sheet as it is, and [acceptAllChanges] after it writes the changes
    that are pending under another id: for the sheet and its history, to
    accept one change is to reject it. *)
Theorem accepting_one_writes_nothing (now : Z) (i : string) (st : Diff.State) :
  Diff.app (Diff.acceptChange i st) = Diff.app st /\
  Diff.app (Diff.acceptAllChanges now (Diff.acceptChange i st))
  = Diff.app (Diff.acceptAllChanges now (Diff.rejectChange i st)) /\
  App.spreadsheetData (Diff.app (Diff.acceptAllChanges now (Diff.acceptChange i st)))
  = App.applyUpdates
      (Diff.updates (List.filter (fun c => negb (String.eqb (Diff.id c) i)) (Diff.pendingChanges st)))
      (App.spreadsheetData (Diff.app st)).
Proof.
  split; [reflexivity|].
  unfold Diff.acceptAllChanges, Diff.acceptChange, Diff.rejectChange.
  cbn [Diff.app Diff.pendingChanges].
  rewrite (updates_decided Diff.accepted) by discriminate.
  rewrite (updates_decided Diff.rejected) by discriminate.
  split; [reflexivity|].
  destruct (Diff.updates _) as [|u us]; reflexivity.
Qed.





Lemma edit_discards_redo_witness :
  App.redo (App.updateCell 1 (ofZ 0) (ofZ 0) "5" (App.initial 0))
  = Some (App.updateCell 1 (ofZ 0) (ofZ 0) "5" (App.initial 0)).
Proof.
  destruct (initial_sound 0) as [Hi _].
  destruct (edit_discards_redo 1 (ofZ 0) (ofZ 0) "5" (App.initial 0) Hi eq_refl) as [_ H].
  exact H.
Defined.

Lemma edit_while_undo_in_flight_witness :
  App.history
    (App.updateCell 1 (ofZ 0) (ofZ 0) "5"
       {| App.spreadsheetData := ∅;
          App.history := [{| App.data := ∅; App.timestamp := 0 |}];
          App.historyIndex := 0;
          App.isUpdatingRef := true |})
  = [{| App.data := ∅; App.timestamp := 0 |}].
Proof.
  destruct (edit_while_undo_in_flight 1 (ofZ 0) (ofZ 0) "5"
              {| App.spreadsheetData := ∅;
                 App.history := [{| App.data := ∅; App.timestamp := 0 |}];
                 App.historyIndex := 0;
                 App.isUpdatingRef := true |} eq_refl) as [H _].
  exact H.
Defined.

Lemma export_then_import_witness :
  exists text newData,
    exportToCSV (sheet [("0-0", "a,b"); ("1-1", "x")]) = Some text /\
    importedData text = Some newData /\
    getCellValue newData (ofZ 0) (ofZ 0)
    = getCellValue (sheet [("0-0", "a,b"); ("1-1", "x")]) (ofZ 0) (ofZ 0).
Proof.
  assert (G : onGrid (sheet [("0-0", "a,b"); ("1-1", "x")])).
  { intros key value H. unfold sheet in H. cbn [list_to_map foldr uncurry fst snd] in H.
    apply lookup_insert_Some in H. destruct H as [[<- _]|[_ H]].
    - exists 0, 0. unfold ROW_COUNT, COLUMN_COUNT.
      split; [lia|]. split; [lia|]. vm_compute. reflexivity.
    - apply lookup_insert_Some in H. destruct H as [[<- _]|[_ H]].
      + exists 1, 1. unfold ROW_COUNT, COLUMN_COUNT.
        split; [lia|]. split; [lia|]. vm_compute. reflexivity.
      + rewrite lookup_empty in H. discriminate H. }
  assert (N : forall key value, sheet [("0-0", "a,b"); ("1-1", "x")] !! key = Some value ->
                                includes newline value = false).
  { intros key value H. unfold sheet in H. cbn [list_to_map foldr uncurry fst snd] in H.
    apply lookup_insert_Some in H. destruct H as [[_ <-]|[_ H]]; [reflexivity|].
    apply lookup_insert_Some in H. destruct H as [[_ <-]|[_ H]]; [reflexivity|].
    rewrite lookup_empty in H. discriminate H. }
  assert (B : forall lines line,
             csvContent (sheet [("0-0", "a,b"); ("1-1", "x")]) = Some lines ->
             line ∈ lines -> isEmpty (trim line) = false).
  { intros lines line E Hl. vm_compute in E. injection E as <-.
    apply elem_of_cons in Hl. destruct Hl as [->|Hl]; [reflexivity|].
    apply elem_of_cons in Hl. destruct Hl as [->|Hl]; [reflexivity|].
    apply elem_of_cons in Hl. destruct Hl as [->|Hl]; [reflexivity|].
    apply elem_of_nil in Hl. destruct Hl. }
  destruct (export_then_import _ G N B) as (text & newData & E1 & E2 & H).
  exists text, newData. split; [exact E1|]. split; [exact E2|].
  apply H; unfold ROW_COUNT, COLUMN_COUNT; lia.
Defined.


Lemma other_keys_leave_sheet_witness :
  exists w',
    Spreadsheet.handleInputKeyDown 1 "Escape" false
      {| Spreadsheet.app := App.initial 0;
         Spreadsheet.view := {| Spreadsheet.editingCell := Some {| Spreadsheet.row := 0; Spreadsheet.col := 0 |};
                          Spreadsheet.editValue := " 7 ";
                          Spreadsheet.selectedCell := None |} |} = Some w' /\
    Spreadsheet.app w' = App.initial 0.
Proof.
  destruct (other_keys_leave_sheet 1 "Escape" false
              {| Spreadsheet.app := App.initial 0;
                 Spreadsheet.view := {| Spreadsheet.editingCell := Some {| Spreadsheet.row := 0; Spreadsheet.col := 0 |};
                                  Spreadsheet.editValue := " 7 ";
                                  Spreadsheet.selectedCell := None |} |}
              {| Spreadsheet.row := 0; Spreadsheet.col := 0 |} eq_refl)
    as (w' & H1 & H2 & _).
  - split; cbn; unfold ROW_COUNT, COLUMN_COUNT; lia.
  - reflexivity.
  - exists w'. split; [exact H1 | exact H2].
Defined.


(** ** The assistant's sum and the formula's *)












